(** * The session and event cache engine of CX-O

    A shallow embedding of [src/core/context.py] (the class
    [ContextManager]) and [src/core/danmaku_cache.py] (the class
    [DanmakuCacheManager]), and the properties of the two stores.

    Conventions of the embedding.
    - A method is a function of the manager's state that ends in an
      [outcome]: it returns, it raises a Python exception, or it never
      returns.  The state carries the files the manager owns.
    - A point in time is an integer number of microseconds, the resolution
      of Python's [datetime].  A method receives the reading of
      [datetime.now()] as its argument [now].
    - Text that the code hands to a parser is represented by what the
      parser makes of it: see [iso_text] and [log_line]. *)

From Stdlib Require Import ZArith Lia.
From stdpp Require Import base option list strings gmap.

#[local] Open Scope string_scope.
#[local] Open Scope list_scope.
#[local] Open Scope Z_scope.

(** ** The pieces of the Python runtime the two classes use *)

Module Py.

(** The exceptions that occur. *)
Inductive exn : Type :=
| TypeError
| ValueError
| JSONDecodeError
| OSError.

(** The result of evaluating an expression that may raise. *)
Inductive result (A : Type) : Type :=
| Ok (a : A)
| Error (e : exn).
Arguments Ok {A} a.
Arguments Error {A} e.

(** The outcome of calling a method on a manager in state [S]: the state the
    call leaves behind comes with the value or with the exception. *)
Inductive outcome (S A : Type) : Type :=
| Returns (s : S) (a : A)
| Raises (s : S) (e : exn)
| Hangs.
Arguments Returns {S A} s a.
Arguments Raises {S A} s e.
Arguments Hangs {S A}.

Definition M (S A : Type) : Type := S -> outcome S A.

Definition ret {S A} (a : A) : M S A := fun s => Returns s a.

Definition bind {S A B} (m : M S A) (k : A -> M S B) : M S B :=
  fun s =>
    match m s with
    | Returns s' a => k a s'
    | Raises s' e => Raises s' e
    | Hangs => Hangs
    end.

Definition raise {S A} (e : exn) : M S A := fun s => Raises s e.
Definition hang {S A} : M S A := fun _ => Hangs.
Definition gets {S A} (f : S -> A) : M S A := fun s => Returns s (f s).
Definition modify {S} (f : S -> S) : M S unit := fun s => Returns (f s) tt.

(** [try: body except Exception as e: handler e]. *)
Definition try_except {S A} (body : M S A) (handler : exn -> M S A) : M S A :=
  fun s =>
    match body s with
    | Returns s' a => Returns s' a
    | Raises s' e => handler e s'
    | Hangs => Hangs
    end.

(** The state a call leaves behind, and the value it returns. *)
Definition state_after {S A} (call : M S A) (self : S) : S :=
  match call self with
  | Returns self' _ | Raises self' _ => self'
  | Hangs => self
  end.

Definition value_of {S A} (call : M S A) (self : S) : option A :=
  match call self with
  | Returns _ a => Some a
  | Raises _ _ | Hangs => None
  end.

(** Lifting of an expression that may raise. *)
Definition lift {S A} (r : result A) : M S A :=
  match r with
  | Ok a => ret a
  | Error e => raise e
  end.

Declare Scope py_scope.
Delimit Scope py_scope with py.
Notation "'let*' x ':=' m 'in' k" := (bind m (fun x => k))
  (at level 10, x name, m at level 100, k at level 200) : py_scope.
Notation "m ';;;' k" := (bind m (fun _ => k))
  (at level 100, k at level 200, right associativity) : py_scope.

(** *** Slices *)

(** [l[start:]]: a negative [start] counts from the end, and what falls
    outside the list is clamped. *)
Definition slice_from {A} (start : Z) (l : list A) : list A :=
  let n := Z.of_nat (length l) in
  let i := if start <? 0 then Z.max 0 (start + n) else Z.min start n in
  drop (Z.to_nat i) l.

(** *** datetime *)

(** A [datetime] is naive (no time zone, as [datetime.now()] gives) or
    aware.  Both carry a number of microseconds. *)
Inductive datetime : Type :=
| Naive (us : Z)
| Aware (us : Z).

(** [a < b] and [a > b]: a naive and an aware value do not compare. *)
Definition dt_lt (a b : datetime) : result bool :=
  match a, b with
  | Naive x, Naive y | Aware x, Aware y => Ok (x <? y)
  | _, _ => Error TypeError
  end.

Definition dt_gt (a b : datetime) : result bool := dt_lt b a.

(** The text of a time stamp, by what [datetime.fromisoformat] makes of it. *)
Inductive iso_text : Type :=
| IsoNaive (us : Z)
| IsoAware (us : Z)
| NotIso (text : string).

Definition fromisoformat (t : iso_text) : result datetime :=
  match t with
  | IsoNaive us => Ok (Naive us)
  | IsoAware us => Ok (Aware us)
  | NotIso _ => Error ValueError
  end.

Definition isoformat (d : datetime) : iso_text :=
  match d with
  | Naive us => IsoNaive us
  | Aware us => IsoAware us
  end.

(** The keyword arguments [timedelta] accepts, with the microseconds of one
    unit of each. *)
Definition timedelta_units : list (string * Z) :=
  [ ("days", 86400000000); ("seconds", 1000000); ("microseconds", 1);
    ("milliseconds", 1000); ("minutes", 60000000); ("hours", 3600000000);
    ("weeks", 604800000000) ].

Definition unit_of (kw : string) : option Z :=
  snd <$> List.find (fun u => String.eqb (fst u) kw) timedelta_units.

(** [timedelta] applied to keyword arguments, in microseconds: a keyword
    it does not have is a [TypeError]. *)
Fixpoint timedelta (kwargs : list (string * Z)) : result Z :=
  match kwargs with
  | [] => Ok 0
  | (kw, v) :: rest =>
      match unit_of kw with
      | None => Error TypeError
      | Some u =>
          match timedelta rest with
          | Ok d => Ok (v * u + d)
          | Error e => Error e
          end
      end
  end.

(** *** Values of a JSON payload, and their truth value *)

Inductive pyval : Type :=
| PNone
| PBool (b : bool)
| PInt (z : Z)
| PStr (s : string).

Definition truthy (v : pyval) : bool :=
  match v with
  | PNone => false
  | PBool b => b
  | PInt z => negb (z =? 0)
  | PStr s => negb (String.eqb s "")
  end.

End Py.

(** ** The event log store: [DanmakuCacheManager] *)

Module Danmaku.
Import Py.
#[local] Open Scope py_scope.

(** The dataclass [DanmakuMessage]. *)
Record DanmakuMessage : Type := {
  id : string;
  platform : string;
  room_id : string;
  username : string;
  uid : string;
  content : string;
  badge_level : Z;
  badge_name : string;
  timestamp : iso_text;
  raw : bool;
  audit_status : string;
  audit_result : gmap string pyval
}.

(** The three assignments [danmaku.raw = ...], [danmaku.audit_status = ...]
    and [danmaku.audit_result = ...] that both write methods start with. *)
Definition set_audit (danmaku : DanmakuMessage) (raw' : bool)
    (status : string) (result : gmap string pyval) : DanmakuMessage :=
  {| id := id danmaku; platform := platform danmaku;
     room_id := room_id danmaku; username := username danmaku;
     uid := uid danmaku; content := content danmaku;
     badge_level := badge_level danmaku; badge_name := badge_name danmaku;
     timestamp := timestamp danmaku;
     raw := raw'; audit_status := status; audit_result := result |}.

(** A line of a log file, by what the reading code makes of it.
    - [Blank]: [line.strip()] is empty.
    - [Garbage]: not blank, and [json.loads(line)] raises.
    - [Entry data]: [json.loads(line)] is an object with the twelve keys
      that [to_dict] writes, and [data] is the message [from_dict] builds
      from it.
    The two write methods produce [Entry] lines only.  A line of JSON that
    is not such an object is not represented. *)
Inductive log_line : Type :=
| Blank
| Garbage
| Entry (data : DanmakuMessage).

(** [line.strip()] as a condition. *)
Definition strip (line : log_line) : bool :=
  match line with
  | Blank => false
  | Garbage | Entry _ => true
  end.

Definition json_loads (line : log_line) : result DanmakuMessage :=
  match line with
  | Entry data => Ok data
  | Blank | Garbage => Error JSONDecodeError
  end.

(** [json.dumps(danmaku.to_dict(), ensure_ascii=False) + '\n']. *)
Definition json_dumps (danmaku : DanmakuMessage) : log_line := Entry danmaku.

Inductive log_file : Type := raw_file | audited_file.

(** The manager: its two settings, and the disk as it sees it.  A file that
    does not exist is [None]; [writable] tells whether opening a file for
    writing succeeds. *)
Record DanmakuCacheManager : Type := {
  retention_days : Z;
  max_count : Z;
  raw_lines : option (list log_line);
  audited_lines : option (list log_line);
  writable : bool
}.

Definition lines_of (file_path : log_file) (self : DanmakuCacheManager)
    : option (list log_line) :=
  match file_path with
  | raw_file => raw_lines self
  | audited_file => audited_lines self
  end.

Definition with_lines (file_path : log_file) (lines : list log_line)
    (self : DanmakuCacheManager) : DanmakuCacheManager :=
  match file_path with
  | raw_file =>
      {| retention_days := retention_days self; max_count := max_count self;
         raw_lines := Some lines; audited_lines := audited_lines self;
         writable := writable self |}
  | audited_file =>
      {| retention_days := retention_days self; max_count := max_count self;
         raw_lines := raw_lines self; audited_lines := Some lines;
         writable := writable self |}
  end.

(** [with open(file_path, 'a') as f: f.write(line)]. *)
Definition append_line (file_path : log_file) (line : log_line)
    : M DanmakuCacheManager unit :=
  fun self =>
    if writable self
    then Returns (with_lines file_path
                    (default [] (lines_of file_path self) ++ [line]) self) tt
    else Raises self OSError.

(** [with open(file_path, 'w') as f: f.writelines(lines)]. *)
Definition write_lines (file_path : log_file) (lines : list log_line)
    : M DanmakuCacheManager unit :=
  fun self =>
    if writable self
    then Returns (with_lines file_path lines self) tt
    else Raises self OSError.

(** [add_raw_danmaku]; the value returned is the message object as the
    method leaves it. *)
Definition add_raw_danmaku (danmaku : DanmakuMessage)
    : M DanmakuCacheManager DanmakuMessage :=
  let danmaku := set_audit danmaku true "pending" ∅ in
  try_except (append_line raw_file (json_dumps danmaku))
             (fun e => ret tt) ;;;
  ret danmaku.

(** [audit_result.get("allowed")] as a condition. *)
Definition allowed (audit_result : gmap string pyval) : bool :=
  match audit_result !! "allowed" with
  | Some v => truthy v
  | None => false
  end.

(** [add_audited_danmaku]; the value returned is the message object as the
    method leaves it. *)
Definition add_audited_danmaku (danmaku : DanmakuMessage)
    (audit_result : gmap string pyval)
    : M DanmakuCacheManager DanmakuMessage :=
  let danmaku :=
    set_audit danmaku false
      (if allowed audit_result then "approved" else "rejected")
      audit_result in
  try_except (append_line audited_file (json_dumps danmaku))
             (fun e => ret tt) ;;;
  ret danmaku.

(** [if platform and danmaku.platform != platform: continue]. *)
Definition platform_skips (platform : option string)
    (danmaku : DanmakuMessage) : bool :=
  match platform with
  | None => false
  | Some p =>
      negb (String.eqb p "") && negb (String.eqb (Danmaku.platform danmaku) p)
  end.

(** The time filter of [get_recent_danmaku]: whatever the [try] block
    raises is passed over, and the message is kept. *)
Definition since_skips (since : option iso_text)
    (danmaku : DanmakuMessage) : bool :=
  match since with
  | None | Some (NotIso "") => false
  | Some since =>
      match fromisoformat (timestamp danmaku) with
      | Error _ => false
      | Ok danmaku_time =>
          match fromisoformat since with
          | Error _ => false
          | Ok since_time =>
              match dt_lt danmaku_time since_time with
              | Ok b => b
              | Error _ => false
              end
          end
      end
  end.

(** The loop of [get_recent_danmaku] over the lines it visits, with the
    list it has appended to so far. *)
Fixpoint collect (count : Z) (platform : option string)
    (since : option iso_text) (lines : list log_line)
    (danmaku_list : list DanmakuMessage) : result (list DanmakuMessage) :=
  match lines with
  | [] => Ok danmaku_list
  | line :: lines =>
      if strip line then
        match json_loads line with
        | Error e => Error e
        | Ok danmaku =>
            if platform_skips platform danmaku
            then collect count platform since lines danmaku_list
            else if since_skips since danmaku
            then collect count platform since lines danmaku_list
            else
              let danmaku_list := danmaku_list ++ [danmaku] in
              if Z.of_nat (length danmaku_list) >=? count
              then Ok danmaku_list
              else collect count platform since lines danmaku_list
        end
      else collect count platform since lines danmaku_list
  end.

Definition get_recent_danmaku (self : DanmakuCacheManager) (count : Z)
    (only_raw : bool) (platform : option string) (since : option iso_text)
    : list DanmakuMessage :=
  let count := Z.min count 100 in
  let file_path := if only_raw then raw_file else audited_file in
  match lines_of file_path self with
  | None => []
  | Some lines =>
      match collect count platform since
              (reverse (slice_from (- count * 2) lines)) [] with
      | Ok danmaku_list => reverse danmaku_list
      | Error e => []
      end
  end.

(** [for danmaku in l: if danmaku.id == danmaku_id: return danmaku]. *)
Definition first_with_id (danmaku_id : string) (l : list DanmakuMessage)
    : option DanmakuMessage :=
  List.find (fun danmaku => String.eqb (id danmaku) danmaku_id) l.

Definition get_danmaku_by_id (self : DanmakuCacheManager)
    (danmaku_id : string) (only_raw : bool) : option DanmakuMessage :=
  match first_with_id danmaku_id
          (get_recent_danmaku self 1000 true None None) with
  | Some danmaku => Some danmaku
  | None =>
      if only_raw then None
      else first_with_id danmaku_id
             (get_recent_danmaku self 1000 false None None)
  end.

Definition get_audited_danmaku (self : DanmakuCacheManager) (count : Z)
    (status : option string) : list DanmakuMessage :=
  let danmaku_list := get_recent_danmaku self count false None None in
  match status with
  | None | Some "" => danmaku_list
  | Some status =>
      List.filter (fun d => String.eqb (audit_status d) status) danmaku_list
  end.

Definition update_audit_result (danmaku_id : string)
    (audit_result : gmap string pyval) : M DanmakuCacheManager unit :=
  let* danmaku := gets (fun self => get_danmaku_by_id self danmaku_id true) in
  match danmaku with
  | Some danmaku => add_audited_danmaku danmaku audit_result ;;; ret tt
  | None => ret tt
  end.

(** Whether [_cleanup_file] keeps the line of a record: when the time stamp
    does not parse or does not compare, the [except] branch keeps it. *)
Definition retained (cutoff_time : datetime) (danmaku_data : DanmakuMessage)
    : bool :=
  match fromisoformat (timestamp danmaku_data) with
  | Error _ => true
  | Ok danmaku_time =>
      match dt_gt danmaku_time cutoff_time with
      | Ok b => b
      | Error _ => true
      end
  end.

(** The reading loop of [_cleanup_file], with the list [lines] it has
    built so far. *)
Fixpoint cleanup_scan (cutoff_time : datetime) (file : list log_line)
    (lines : list log_line) : result (list log_line) :=
  match file with
  | [] => Ok lines
  | line :: file =>
      if strip line then
        match json_loads line with
        | Error e => Error e
        | Ok danmaku_data =>
            if retained cutoff_time danmaku_data
            then cleanup_scan cutoff_time file (lines ++ [line])
            else cleanup_scan cutoff_time file lines
        end
      else cleanup_scan cutoff_time file lines
  end.

Definition _cleanup_file (file_path : log_file) (cutoff_time : datetime)
    : M DanmakuCacheManager unit :=
  let* file := gets (lines_of file_path) in
  match file with
  | None => ret tt
  | Some file =>
      let* lines := lift (cleanup_scan cutoff_time file []) in
      write_lines file_path lines
  end.

(** [cleanup_old_danmaku]: [days or self.retention_days] takes the
    manager's setting also when [days] is [0]. *)
Definition cleanup_old_danmaku (now : Z) (days : option Z)
    : M DanmakuCacheManager unit :=
  let* retention := gets retention_days in
  let days :=
    match days with
    | None => retention
    | Some d => if d =? 0 then retention else d
    end in
  let* delta := lift (timedelta [("days", days)]) in
  let cutoff_time := Naive (now - delta) in
  _cleanup_file raw_file cutoff_time ;;;
  _cleanup_file audited_file cutoff_time.

Record statistics : Type := {
  raw_count : Z;
  audited_count : Z;
  approved_count : Z;
  rejected_count : Z;
  pending_count : Z
}.

(** The loop of [get_statistics] over the audited log, with the three
    counters. *)
Fixpoint count_audited (file : list log_line) (audited approved rejected : Z)
    : result (Z * Z * Z) :=
  match file with
  | [] => Ok (audited, approved, rejected)
  | line :: file =>
      if strip line then
        let audited := audited + 1 in
        match json_loads line with
        | Error e => Error e
        | Ok data =>
            if String.eqb (audit_status data) "approved"
            then count_audited file audited (approved + 1) rejected
            else if String.eqb (audit_status data) "rejected"
            then count_audited file audited approved (rejected + 1)
            else count_audited file audited approved rejected
        end
      else count_audited file audited approved rejected
  end.

Definition get_statistics (self : DanmakuCacheManager) : result statistics :=
  let raw_count :=
    match raw_lines self with
    | None => 0
    | Some file => Z.of_nat (length file)
    end in
  match count_audited (default [] (audited_lines self)) 0 0 0 with
  | Error e => Error e
  | Ok (audited_count, approved_count, rejected_count) =>
      Ok {| raw_count := raw_count; audited_count := audited_count;
            approved_count := approved_count;
            rejected_count := rejected_count; pending_count := raw_count |}
  end.

End Danmaku.

(** ** The session context store: [ContextManager] *)

Module Message.
(** The dataclass [Message]. *)
Record t : Type := {
  role : string;
  content : string;
  timestamp : Py.iso_text;
  audio_path : option string;
  audio_data : option string;
  metadata : option (gmap string Py.pyval)
}.
End Message.

Module MonoContextItem.
(** The dataclass [MonoContextItem]. *)
Record t : Type := {
  content : string;
  expires_at : Py.iso_text;
  rounds : Z
}.
End MonoContextItem.

Module Context.
Import Py.
#[local] Open Scope py_scope.

(** The document [save_context] writes for a session. *)
Record context : Type := {
  session_id : string;
  created_at : iso_text;
  last_active : iso_text;
  messages : list Message.t;
  mono_context : list MonoContextItem.t;
  memory_references : list string;
  metadata : gmap string pyval
}.

(** The file of a session, by what [json.load] makes of it. *)
Inductive session_file : Type :=
| Unreadable
| Json (document : context).

(** What sits under a key of a cache entry.  An entry is a dict with string
    keys; [_update_cache] is the only code that builds one. *)
Inductive entry_value : Type :=
| EContext (document : context)
| EDatetime (d : datetime)
| EMessages (l : list Message.t).

(** The manager: its three settings, the session files on disk (a session
    without a file has no binding), whether opening a file for writing
    succeeds, and the two parts of the memory cache. *)
Record ContextManager : Type := {
  max_messages : Z;
  cache_ttl : Z;
  max_cache_size : Z;
  sessions : gmap string session_file;
  writable : bool;
  _memory_cache : gmap string (gmap string entry_value);
  _cache_order : list string
}.

Definition with_cache (cache : gmap string (gmap string entry_value))
    (order : list string) (self : ContextManager) : ContextManager :=
  {| max_messages := max_messages self; cache_ttl := cache_ttl self;
     max_cache_size := max_cache_size self; sessions := sessions self;
     writable := writable self;
     _memory_cache := cache; _cache_order := order |}.

Definition with_sessions (files : gmap string session_file)
    (self : ContextManager) : ContextManager :=
  {| max_messages := max_messages self; cache_ttl := cache_ttl self;
     max_cache_size := max_cache_size self; sessions := files;
     writable := writable self;
     _memory_cache := _memory_cache self;
     _cache_order := _cache_order self |}.

(** [l.remove(x)] for an [x] that may be absent: the first occurrence goes. *)
Fixpoint remove_first (x : string) (l : list string) : list string :=
  match l with
  | [] => []
  | y :: l => if String.eqb y x then l else y :: remove_first x l
  end.

(** The [while] loop of [_update_cache].  With the order list empty and the
    cache still too large the loop changes nothing and runs for ever:
    that is [None]. *)
Fixpoint evict (capacity : Z) (cache : gmap string (gmap string entry_value))
    (order : list string)
    : option (gmap string (gmap string entry_value) * list string) :=
  if Z.of_nat (size cache) >? capacity then
    match order with
    | [] => None
    | oldest_key :: order => evict capacity (delete oldest_key cache) order
    end
  else Some (cache, order).

(** The entry [{"data": context, "timestamp": datetime.now()}]. *)
Definition new_entry (document : context) (now : Z)
    : gmap string entry_value :=
  <["data" := EContext document]> (<["timestamp" := EDatetime (Naive now)]> ∅).

Definition _update_cache (now : Z) (session_id : string) (document : context)
    : M ContextManager unit :=
  fun self =>
    let cache := <[session_id := new_entry document now]> (_memory_cache self) in
    let order := remove_first session_id (_cache_order self) ++ [session_id] in
    match evict (max_cache_size self) cache order with
    | None => Hangs
    | Some (cache, order) => Returns (with_cache cache order self) tt
    end.

(** [_is_cache_valid]: the age in seconds is compared with [cache_ttl];
    whatever the [try] block raises makes the entry invalid. *)
Definition _is_cache_valid (now : Z) (cache_ttl : Z)
    (cached : gmap string entry_value) : bool :=
  if bool_decide (cached = ∅) then false
  else
    match cached !! "timestamp" with
    | Some (EDatetime (Naive cached_time)) =>
        bool_decide (now - cached_time < cache_ttl * 1000000)
    | Some _ | None => false
    end.

(** [cached.get("messages", [])]. *)
Definition get_messages (cached : gmap string entry_value)
    : list Message.t :=
  match cached !! "messages" with
  | Some (EMessages l) => l
  | Some _ | None => []
  end.

Definition _get_or_create_created_at (now : Z) (session_id : string)
    (self : ContextManager) : iso_text :=
  match sessions self !! session_id with
  | Some (Json document) => created_at document
  | Some Unreadable | None => isoformat (Naive now)
  end.

(** [with open(context_file, 'w') as f: json.dump(context, f)]. *)
Definition write_session (session_id : string) (document : context)
    : M ContextManager unit :=
  fun self =>
    if writable self
    then Returns (with_sessions (<[session_id := Json document]> (sessions self))
                    self) tt
    else Raises self OSError.

Definition save_context (now : Z) (session_id : string)
    (messages : list Message.t) (metadata : option (gmap string pyval))
    (mono_context : option (list MonoContextItem.t))
    : M ContextManager unit :=
  let* created := gets (_get_or_create_created_at now session_id) in
  let document :=
    {| session_id := session_id;
       created_at := created;
       last_active := isoformat (Naive now);
       messages := messages;
       mono_context := default [] mono_context;
       memory_references := [];
       metadata := default ∅ metadata |} in
  try_except
    (write_session session_id document ;;;
     _update_cache now session_id document)
    (fun e => raise e).

(** The second half of [load_context]: the read from the file. *)
Definition load_from_file (now : Z) (session_id : string)
    : M ContextManager (list Message.t) :=
  let* file := gets (fun self => sessions self !! session_id) in
  match file with
  | None => ret []
  | Some Unreadable => ret []
  | Some (Json document) =>
      _update_cache now session_id document ;;;
      ret (messages document)
  end.

Definition load_context (now : Z) (session_id : string)
    : M ContextManager (list Message.t) :=
  let* entry := gets (fun self => _memory_cache self !! session_id) in
  let* ttl := gets cache_ttl in
  match entry with
  | Some cached =>
      if _is_cache_valid now ttl cached
      then ret (get_messages cached)
      else load_from_file now session_id
  | None => load_from_file now session_id
  end.

(** [append_message].  After a read from the file the list that is extended
    is also the one inside the cached document; no code reads the document
    of a cache entry, so that sharing is not tracked. *)
Definition append_message (now : Z) (session_id : string)
    (message : Message.t) : M ContextManager unit :=
  let* messages := load_context now session_id in
  let messages := messages ++ [message] in
  let* limit := gets max_messages in
  let messages :=
    if Z.of_nat (length messages) >? limit
    then slice_from (- limit) messages
    else messages in
  save_context now session_id messages None None.

Definition get_recent_messages (now : Z) (session_id : string) (count : Z)
    : M ContextManager (list Message.t) :=
  let* messages := load_context now session_id in
  ret (slice_from (- count) messages).

(** [context_file.unlink()]: a disk that refuses writes refuses the
    removal of a file as well, and the call raises. *)
Definition unlink_session (session_id : string) : M ContextManager unit :=
  fun self =>
    if writable self
    then Returns (with_sessions (delete session_id (sessions self)) self) tt
    else Raises self OSError.

Definition clear_context (session_id : string) : M ContextManager unit :=
  let* file := gets (fun self => sessions self !! session_id) in
  match file with
  | None => ret tt
  | Some _ =>
      unlink_session session_id ;;;
      modify (fun self =>
        with_cache (delete session_id (_memory_cache self))
                   (remove_first session_id (_cache_order self)) self)
  end.

Definition _load_mono_context (session_id : string) (self : ContextManager)
    : list MonoContextItem.t :=
  match sessions self !! session_id with
  | Some (Json document) => mono_context document
  | Some Unreadable | None => []
  end.

Definition add_mono_context (now : Z) (session_id : string)
    (content : string) (rounds : Z) : M ContextManager unit :=
  let* messages := load_context now session_id in
  let* mono := gets (_load_mono_context session_id) in
  let* delta := lift (timedelta [("rounds", rounds)]) in
  let expires_at := Naive (now + delta) in
  let mono :=
    mono ++ [ {| MonoContextItem.content := content;
                 MonoContextItem.expires_at := isoformat expires_at;
                 MonoContextItem.rounds := rounds |} ] in
  save_context now session_id messages None (Some mono).

(** The test both mono loops make on an item: [expires_at > now], with
    whatever the [try] block raises passed over. *)
Definition unexpired (now : Z) (item : MonoContextItem.t) : bool :=
  match fromisoformat (MonoContextItem.expires_at item) with
  | Error _ => false
  | Ok expires_at =>
      match dt_gt expires_at (Naive now) with
      | Ok b => b
      | Error _ => false
      end
  end.

(** The loop of [get_mono_context], with the list it has built so far. *)
Fixpoint valid_contents (now : Z) (mono : list MonoContextItem.t)
    (valid_contexts : list string) : list string :=
  match mono with
  | [] => valid_contexts
  | item :: mono =>
      if unexpired now item
      then valid_contents now mono
             (valid_contexts ++ [MonoContextItem.content item])
      else valid_contents now mono valid_contexts
  end.

Definition get_mono_context (now : Z) (session_id : string)
    (self : ContextManager) : list string :=
  valid_contents now (_load_mono_context session_id self) [].

(** The loop of [clear_expired_mono]. *)
Fixpoint valid_items (now : Z) (mono : list MonoContextItem.t)
    (valid_context : list MonoContextItem.t) : list MonoContextItem.t :=
  match mono with
  | [] => valid_context
  | item :: mono =>
      if unexpired now item
      then valid_items now mono (valid_context ++ [item])
      else valid_items now mono valid_context
  end.

Definition clear_expired_mono (now : Z) (session_id : string)
    : M ContextManager unit :=
  let* messages := load_context now session_id in
  let* mono := gets (_load_mono_context session_id) in
  let valid_context := valid_items now mono [] in
  if bool_decide (length valid_context ≠ length mono)
  then save_context now session_id messages None (Some valid_context)
  else ret tt.

(** The state of the cache that the methods establish and keep: the order
    list names the cached sessions, each once, and the capacity is not
    negative. *)
Definition cache_ok (self : ContextManager) : Prop :=
  0 ≤ max_cache_size self
  ∧ NoDup (_cache_order self)
  ∧ dom (_memory_cache self) = list_to_set (_cache_order self).

(** [self'] has the settings and the disk condition of [self]. *)
Definition same_settings (self self' : ContextManager) : Prop :=
  max_messages self' = max_messages self
  ∧ cache_ttl self' = cache_ttl self
  ∧ max_cache_size self' = max_cache_size self
  ∧ writable self' = writable self.

(** [ContextManager(max_messages=..., cache_ttl=..., max_cache_size=...)]
    on an empty directory. *)
Definition new_manager (max_messages cache_ttl max_cache_size : Z)
    : ContextManager :=
  {| max_messages := max_messages; cache_ttl := cache_ttl;
     max_cache_size := max_cache_size; sessions := ∅; writable := true;
     _memory_cache := ∅; _cache_order := [] |}.

End Context.

(** ** Derived notions and scenarios of the session context store *)

Module ContextScenario.
Import Py Context.

(** The keys that stay cached after [session_id] has been touched. *)
Definition kept_order (session_id : string) (self : ContextManager)
    : list string :=
  let order := remove_first session_id (_cache_order self) ++ [session_id] in
  drop (length order - Z.to_nat (max_cache_size self)) order.

(** The document [save_context] builds. *)
Definition saved_document (now : Z) (session_id : string)
    (messages : list Message.t) (metadata : option (gmap string pyval))
    (mono : option (list MonoContextItem.t)) (self : ContextManager)
    : context :=
  {| session_id := session_id;
     created_at := _get_or_create_created_at now session_id self;
     last_active := isoformat (Naive now);
     messages := messages;
     mono_context := default [] mono;
     memory_references := [];
     metadata := default ∅ metadata |}.

(** A message as the chat loop appends it. *)
Definition message (role content : string) : Message.t :=
  {| Message.role := role; Message.content := content;
     Message.timestamp := IsoNaive 0; Message.audio_path := None;
     Message.audio_data := None; Message.metadata := None |}.

(** One second, in microseconds. *)
Definition second : Z := 1000000.

(** A manager that keeps two messages, after three calls of
    [append_message] one second apart. *)
Definition after_three_appends : ContextManager :=
  state_after (append_message (2 * second) "s1" (message "user" "c"))
    (state_after (append_message (1 * second) "s1" (message "assistant" "b"))
       (state_after (append_message 0 "s1" (message "user" "a"))
          (new_manager 2 3600 100))).

(** A cache for two sessions: [a] and [b] are saved, then [a] is loaded. *)
Definition two_cached : ContextManager :=
  state_after (save_context (1 * second) "b" [message "user" "hi"] None None)
    (state_after (save_context 0 "a" [message "user" "hello"] None None)
       (new_manager 40 3600 2)).

Definition after_hit_and_put : ContextManager :=
  state_after (save_context (3 * second) "c" [message "user" "hey"] None None)
    (state_after (load_context (2 * second) "a") two_cached).

(** [_update_cache] for the keys of a list, one after the other. *)
Fixpoint put_all (now : Z) (document : context) (keys : list string)
    : M ContextManager unit :=
  match keys with
  | [] => ret tt
  | key :: keys =>
      bind (_update_cache now key document) (λ _, put_all now document keys)
  end.

(** [append_message] for a list of calls, each with its time. *)
Fixpoint append_all (session_id : string) (calls : list (Z * Message.t))
    : M ContextManager unit :=
  match calls with
  | [] => ret tt
  | (now, message) :: calls =>
      bind (append_message now session_id message)
        (λ _, append_all session_id calls)
  end.

(** A manager whose cache holds nothing and has room for nothing: every
    load reads the file. *)
Definition uncached (self : ContextManager) : Prop :=
  max_cache_size self = 0
  ∧ _memory_cache self = ∅
  ∧ _cache_order self = [].

(** The messages in the file of a session. *)
Definition stored_messages (session_id : string) (self : ContextManager)
    : list Message.t :=
  match sessions self !! session_id with
  | Some (Json document) => messages document
  | Some Unreadable | None => []
  end.

(** A manager on a disk that refuses writes. *)
Definition read_only_context : ContextManager :=
  {| max_messages := 40; cache_ttl := 3600; max_cache_size := 100;
     sessions := ∅; writable := false;
     _memory_cache := ∅; _cache_order := [] |}.

(** A session file that holds one mono item, which expires at [expiry]. *)
Definition with_mono_item (content : string) (expiry : Z) : ContextManager :=
  state_after
    (save_context 0 "s1" [] None
       (Some [ {| MonoContextItem.content := content;
                  MonoContextItem.expires_at := IsoNaive expiry;
                  MonoContextItem.rounds := 1 |} ]))
    (new_manager 40 3600 100).

End ContextScenario.

(** ** Derived notions and scenarios of the event log store *)

Module DanmakuScenario.
Import Py Danmaku.

(** The records of a log: its [Entry] lines. *)
Definition records_of (file : list log_line) : list DanmakuMessage :=
  omap (λ line, match line with Entry data => Some data | _ => None end) file.

Definition is_entry (line : log_line) : Prop := ∃ data, line = Entry data.

(** The part of a log that [get_danmaku_by_id] lets [get_recent_danmaku]
    read: the count [1000] is cut down to [100], and twice that many lines
    are taken from the end. *)
Definition tail_window (file : option (list log_line)) : list log_line :=
  slice_from (- 200) (default [] file).

(** The line [_cleanup_file] keeps. *)
Definition keeps (cutoff_time : datetime) (line : log_line) : bool :=
  match line with
  | Entry data => retained cutoff_time data
  | Blank | Garbage => false
  end.

(** The retention claim as it is worded, for a log [file] and the log
    [kept] that the rewrite leaves: the records that are gone are those
    whose time stamp parses and falls before the cutoff. *)
Definition removes_exactly_before (cutoff_time : datetime)
    (file kept : list log_line) : Prop :=
  ∀ data, Entry data ∈ file →
    (Entry data ∉ kept ↔
     ∃ t, fromisoformat (timestamp data) = Ok t ∧ dt_lt t cutoff_time = Ok true).

(** The same with the cutoff itself on the side of what goes: the records
    that are gone are those whose time stamp parses, compares with the
    cutoff and is not after it. *)
Definition removes_exactly_not_after (cutoff_time : datetime)
    (file kept : list log_line) : Prop :=
  ∀ data, Entry data ∈ file →
    (Entry data ∉ kept ↔
     ∃ t, fromisoformat (timestamp data) = Ok t ∧ dt_gt t cutoff_time = Ok false).

(** A message as the ingestion plugin builds it. *)
Definition danmaku (id content : string) (time : Z) : DanmakuMessage :=
  {| id := id; platform := "live"; room_id := "1"; username := "viewer";
     uid := "7"; content := content; badge_level := 0; badge_name := "";
     timestamp := IsoNaive time; raw := true; audit_status := "pending";
     audit_result := ∅ |}.

(** [DanmakuCacheManager()] with the raw log holding [raw]. *)
Definition manager_with (raw : option (list log_line)) : DanmakuCacheManager :=
  {| retention_days := 7; max_count := 10000;
     raw_lines := raw; audited_lines := None; writable := true |}.

(** The same on a disk that refuses writes. *)
Definition read_only_manager : DanmakuCacheManager :=
  {| retention_days := 7; max_count := 10000;
     raw_lines := None; audited_lines := None; writable := false |}.

Definition e1 : DanmakuMessage := danmaku "e1" "hello" 1000000.
Definition e2 : DanmakuMessage := danmaku "e2" "world" 2000000.

(** Two records, the older one first, as [add_raw_danmaku] leaves them. *)
Definition two_logged : DanmakuCacheManager :=
  state_after (add_raw_danmaku e2)
    (state_after (add_raw_danmaku e1) (manager_with None)).

(** Two records with a line between them that is not JSON. *)
Definition garbled : DanmakuCacheManager :=
  manager_with (Some [Entry e1; Garbage; Entry e2]).

(** The same lines as the audited log. *)
Definition garbled_audited : DanmakuCacheManager :=
  {| retention_days := 7; max_count := 10000; raw_lines := None;
     audited_lines := Some [Entry e1; Garbage; Entry e2]; writable := true |}.

(** The resilience claim as it is worded, for the raw log: the call returns
    as many records as the log has well-formed lines, and the statistics
    count as many. *)
Definition returns_the_valid_records (self : DanmakuCacheManager)
    (count : Z) : Prop :=
  ∃ file stats,
    raw_lines self = Some file
    ∧ length (get_recent_danmaku self count true None None)
      = length (records_of file)
    ∧ get_statistics self = Ok stats
    ∧ raw_count stats = Z.of_nat (length (records_of file)).

(** A raw log that opens with [e1] and goes on with two hundred other
    records. *)
Definition long_log : DanmakuCacheManager :=
  manager_with (Some (Entry e1 :: replicate 200 (Entry e2))).

(** One record, and the moment seven days after its time stamp. *)
Definition at_cutoff : DanmakuCacheManager :=
  manager_with (Some [Entry (danmaku "e0" "bye" 100)]).

Definition seven_days_later : Z := 100 + 7 * 86400000000.

(** A write of the raw log is reported: the call raises. *)
Definition reports_failure (danmaku : DanmakuMessage)
    (self : DanmakuCacheManager) : Prop :=
  ∃ self' e, add_raw_danmaku danmaku self = Raises self' e.

(** The message as the raw log holds it, and as the audited log holds it. *)
Definition pending (danmaku : DanmakuMessage) : DanmakuMessage :=
  set_audit danmaku true "pending" ∅.

Definition audited (danmaku : DanmakuMessage)
    (audit_result : gmap string pyval) : DanmakuMessage :=
  set_audit danmaku false
    (if allowed audit_result then "approved" else "rejected") audit_result.

(** The audited log has the entry of [danmaku] with the outcome. *)
Definition has_audited_entry (danmaku : DanmakuMessage)
    (audit_result : gmap string pyval) (self : DanmakuCacheManager) : Prop :=
  ∃ file, audited_lines self = Some file
          ∧ Entry (audited danmaku audit_result) ∈ file.

(** An outcome of moderation. *)
Definition approve : gmap string pyval := {[ "allowed" := PBool true ]}.

(** A raw log with a line that is not JSON, then [e1] is added and its
    audit result arrives. *)
Definition audited_after_garbage : DanmakuCacheManager :=
  state_after (update_audit_result "e1" approve)
    (state_after (add_raw_danmaku e1) (manager_with (Some [Garbage]))).

End DanmakuScenario.

(** ** Scenarios for the further properties of the two stores *)

Module ExtraScenario.
Import Py.

(** A manager with room for two sessions in its cache. *)
Definition small_cache : Context.ContextManager := Context.new_manager 40 3600 2.


(** A manager without room in its cache that keeps two messages, one that
    never cuts ([max_messages = 0]) and one with a negative limit. *)
Definition no_cache (max_messages : Z) : Context.ContextManager :=
  Context.new_manager max_messages 3600 0.

(** A session document with two messages, a mono item that has expired at
    time [5] and one that expires at time [50], and some metadata. *)
Definition tea : MonoContextItem.t :=
  {| MonoContextItem.content := "the user likes tea";
     MonoContextItem.expires_at := IsoNaive 50;
     MonoContextItem.rounds := 2 |}.

Definition rain : MonoContextItem.t :=
  {| MonoContextItem.content := "it rains today";
     MonoContextItem.expires_at := IsoNaive 5;
     MonoContextItem.rounds := 1 |}.

Definition chat : Context.context :=
  {| Context.session_id := "s1";
     Context.created_at := IsoNaive 1;
     Context.last_active := IsoNaive 2;
     Context.messages :=
       [ContextScenario.message "user" "hi";
        ContextScenario.message "assistant" "hello"];
     Context.mono_context := [rain; tea];
     Context.memory_references := [];
     Context.metadata := {[ "topic" := PStr "weather" ]} |}.

(** A manager that finds the file of [chat] on its disk, and one that finds
    a file it cannot decode. *)
Definition with_file (file : Context.session_file) : Context.ContextManager :=
  {| Context.max_messages := 40; Context.cache_ttl := 3600;
     Context.max_cache_size := 100;
     Context.sessions := {[ "s1" := file ]}; Context.writable := true;
     Context._memory_cache := ∅; Context._cache_order := [] |}.

(** The file of [chat] on a disk that refuses writes. *)
Definition locked_file : Context.ContextManager :=
  {| Context.max_messages := 40; Context.cache_ttl := 3600;
     Context.max_cache_size := 100;
     Context.sessions := {[ "s1" := Context.Json chat ]};
     Context.writable := false;
     Context._memory_cache := ∅; Context._cache_order := [] |}.

(** The same disk under a manager whose capacity is negative. *)
Definition negative_cache : Context.ContextManager :=
  {| Context.max_messages := 40; Context.cache_ttl := 3600;
     Context.max_cache_size := - 1;
     Context.sessions := {[ "s1" := Context.Json chat ]};
     Context.writable := true;
     Context._memory_cache := ∅; Context._cache_order := [] |}.

(** The records of a list that carry a status. *)
Definition with_status (status : string)
    (records : list Danmaku.DanmakuMessage) : list Danmaku.DanmakuMessage :=
  List.filter (λ d, String.eqb (Danmaku.audit_status d) status) records.

(** Whether the two filters of [get_recent_danmaku] let a record through. *)
Definition passes (platform : option string) (since : option iso_text)
    (danmaku : Danmaku.DanmakuMessage) : bool :=
  negb (Danmaku.platform_skips platform danmaku)
  && negb (Danmaku.since_skips since danmaku).

(** [days or self.retention_days] in [cleanup_old_danmaku]. *)
Definition days_kept (days : option Z)
    (self : Danmaku.DanmakuCacheManager) : Z :=
  match days with
  | None => Danmaku.retention_days self
  | Some d => if d =? 0 then Danmaku.retention_days self else d
  end.

(** A number of days that [timedelta] takes and that [datetime.now()] can
    be moved by: at most a century either way.  Beyond their range both
    raise [OverflowError], which the unbounded time line of this model
    does not have. *)
Definition within_a_century (days : Z) : Prop := - 36500 ≤ days ≤ 36500.

(** The cutoff of [cleanup_old_danmaku]. *)
Definition cutoff_of (now : Z) (days : option Z)
    (self : Danmaku.DanmakuCacheManager) : datetime :=
  Naive (now - (days_kept days self * 86400000000 + 0)).

(** The logs after [cleanup_old_danmaku] on a disk that takes the writes:
    a log that is there is cut down to the lines [_cleanup_file] keeps. *)
Definition cleaned (cutoff_time : datetime)
    (self : Danmaku.DanmakuCacheManager) : Danmaku.DanmakuCacheManager :=
  {| Danmaku.retention_days := Danmaku.retention_days self;
     Danmaku.max_count := Danmaku.max_count self;
     Danmaku.raw_lines :=
       filter (λ line, DanmakuScenario.keeps cutoff_time line)
         <$> Danmaku.raw_lines self;
     Danmaku.audited_lines :=
       filter (λ line, DanmakuScenario.keeps cutoff_time line)
         <$> Danmaku.audited_lines self;
     Danmaku.writable := Danmaku.writable self |}.

(** Records of three kinds: on another platform, with a time stamp that
    carries a time zone, and with an outcome of moderation. *)
Definition on_platform (platform : string)
    (danmaku : Danmaku.DanmakuMessage) : Danmaku.DanmakuMessage :=
  {| Danmaku.id := Danmaku.id danmaku; Danmaku.platform := platform;
     Danmaku.room_id := Danmaku.room_id danmaku;
     Danmaku.username := Danmaku.username danmaku;
     Danmaku.uid := Danmaku.uid danmaku;
     Danmaku.content := Danmaku.content danmaku;
     Danmaku.badge_level := Danmaku.badge_level danmaku;
     Danmaku.badge_name := Danmaku.badge_name danmaku;
     Danmaku.timestamp := Danmaku.timestamp danmaku;
     Danmaku.raw := Danmaku.raw danmaku;
     Danmaku.audit_status := Danmaku.audit_status danmaku;
     Danmaku.audit_result := Danmaku.audit_result danmaku |}.

Definition e3 : Danmaku.DanmakuMessage :=
  DanmakuScenario.danmaku "e3" "again" 3000000.

(** A manager with both logs given. *)
Definition manager_of (raw audited : option (list Danmaku.log_line))
    (writable : bool) : Danmaku.DanmakuCacheManager :=
  {| Danmaku.retention_days := 7; Danmaku.max_count := 10000;
     Danmaku.raw_lines := raw; Danmaku.audited_lines := audited;
     Danmaku.writable := writable |}.

(** Outcomes of moderation. *)
Definition reject : gmap string pyval :=
  {[ "allowed" := PBool false; "reason" := PStr "spam" ]}.

End ExtraScenario.

(** ** Facts about the session context store *)

Module ContextFacts.
Import Py Context ContextScenario.
#[local] Open Scope py_scope.
#[local] Set Warnings "-clear-no-such-hyp".

Lemma timedelta_rounds (rounds : Z) :
  timedelta [("rounds", rounds)] = Error TypeError.
Proof. reflexivity. Qed.

(** *** The order list *)

Lemma remove_first_elem_of x y l :
  NoDup l → y ∈ remove_first x l ↔ y ∈ l ∧ y ≠ x.
Proof.
  induction l as [|z l IH]; intros Hnd.
  - cbn. set_solver.
  - apply NoDup_cons in Hnd as [Hz Hnd]. cbn.
    destruct (String.eqb_spec z x) as [->|Hne].
    + set_solver.
    + rewrite !elem_of_cons, IH by done. naive_solver.
Qed.

Lemma remove_first_NoDup x l : NoDup l → NoDup (remove_first x l).
Proof.
  induction l as [|z l IH]; intros Hnd; [done|].
  apply NoDup_cons in Hnd as [Hz Hnd]. cbn.
  destruct (String.eqb_spec z x) as [->|Hne]; [done|].
  apply NoDup_cons. split; [|auto].
  rewrite remove_first_elem_of by done. tauto.
Qed.

Lemma touched_order_NoDup session_id order :
  NoDup order → NoDup (remove_first session_id order ++ [session_id]).
Proof.
  intros Hnd. apply NoDup_app. split; [by apply remove_first_NoDup|].
  split; [|apply NoDup_singleton].
  intros x Hx. rewrite remove_first_elem_of in Hx by done. set_solver.
Qed.

Lemma touched_order_elements session_id order :
  NoDup order →
  list_to_set (C := gset string) (remove_first session_id order ++ [session_id])
  = {[session_id]} ∪ list_to_set order.
Proof.
  intros Hnd. apply set_eq. intros x.
  rewrite list_to_set_app_L, !elem_of_union, !elem_of_list_to_set.
  rewrite remove_first_elem_of by done.
  rewrite list_elem_of_singleton, elem_of_singleton.
  destruct (decide (x = session_id)); naive_solver.
Qed.

(** *** The eviction loop *)

Lemma evict_nil capacity cache :
  evict capacity cache [] =
  if Z.of_nat (size cache) >? capacity then None else Some (cache, []).
Proof. reflexivity. Qed.

Lemma evict_cons capacity cache oldest_key order :
  evict capacity cache (oldest_key :: order) =
  if Z.of_nat (size cache) >? capacity
  then evict capacity (delete oldest_key cache) order
  else Some (cache, oldest_key :: order).
Proof. reflexivity. Qed.

Lemma size_cache_order (cache : gmap string (gmap string entry_value)) order :
  NoDup order → dom cache = list_to_set order → size cache = length order.
Proof.
  intros Hnd Hdom. rewrite <- size_dom, Hdom. by apply size_list_to_set.
Qed.

(** What the loop leaves when the cache and the order list are in step: the
    last [capacity] keys of the list, with their entries. *)
Lemma evict_spec capacity order :
  ∀ cache : gmap string (gmap string entry_value),
    0 ≤ capacity → NoDup order → dom cache = list_to_set order →
    let order' := drop (length order - Z.to_nat capacity) order in
    evict capacity cache order
    = Some (filter (λ kv, kv.1 ∈ order') cache, order').
Proof.
  induction order as [|oldest_key order IH]; intros cache Hcap Hnd Hdom order'.
  - rewrite evict_nil. cbn in Hdom. apply dom_empty_inv_L in Hdom as ->.
    rewrite map_size_empty. subst order'. cbn.
    destruct (Z.gtb_spec (Z.of_nat 0) capacity); [lia|].
    by rewrite map_filter_empty.
  - rewrite evict_cons, (size_cache_order cache (oldest_key :: order)) by done.
    apply NoDup_cons in Hnd as [Hfresh Hnd]. subst order'. cbn [length].
    destruct (Z.gtb_spec (Z.of_nat (S (length order))) capacity) as [Hgt|Hle].
    + replace (S (length order) - Z.to_nat capacity)%nat
        with (S (length order - Z.to_nat capacity)) by lia.
      cbn [drop]. rewrite IH; [|done..|].
      * do 2 f_equal. apply map_eq. intros key.
        rewrite !map_lookup_filter.
        destruct (decide (key = oldest_key)) as [->|Hne].
        -- rewrite lookup_delete_eq. cbn.
           destruct (cache !! oldest_key) as [v|]; [|done]. cbn.
           rewrite option_guard_False; [done|].
           cbn. intros Hin. apply Hfresh.
           eapply elem_of_sublist; [exact Hin|apply sublist_drop].
        -- by rewrite lookup_delete_ne.
      * rewrite dom_delete_L, Hdom. cbn. set_solver.
    + replace (S (length order) - Z.to_nat capacity)%nat with 0%nat by lia.
      cbn [drop]. f_equal. f_equal. symmetry. apply map_filter_id.
      intros key v Hkey. cbn.
      apply elem_of_dom_2 in Hkey. rewrite Hdom in Hkey.
      by apply elem_of_list_to_set in Hkey.
Qed.

Lemma kept_keys_dom (cache : gmap string (gmap string entry_value))
    (order : list string) (n : nat) :
  dom cache = list_to_set order →
  dom (filter (λ kv, kv.1 ∈ drop n order) cache) = list_to_set (drop n order).
Proof.
  intros Hdom. apply set_eq. intros key.
  rewrite elem_of_dom, elem_of_list_to_set. split.
  - intros [v Hv]. apply map_lookup_filter_Some in Hv as [_ Hin]. exact Hin.
  - intros Hin.
    assert (key ∈ dom cache) as [v Hv]%elem_of_dom.
    { rewrite Hdom. apply elem_of_list_to_set.
      eapply elem_of_sublist; [exact Hin|apply sublist_drop]. }
    exists v. by apply map_lookup_filter_Some.
Qed.

(** *** [_update_cache] *)

Lemma _update_cache_spec now session_id document self :
  cache_ok self →
  _update_cache now session_id document self
  = Returns
      (with_cache
         (filter (λ kv, kv.1 ∈ kept_order session_id self)
            (<[session_id := new_entry document now]> (_memory_cache self)))
         (kept_order session_id self) self) tt.
Proof.
  intros (Hcap & Hnd & Hdom). unfold _update_cache, kept_order.
  rewrite evict_spec; [done|done|by apply touched_order_NoDup|].
  by rewrite dom_insert_L, Hdom, touched_order_elements.
Qed.

Lemma _update_cache_ok now session_id document self :
  cache_ok self →
  cache_ok (with_cache
         (filter (λ kv, kv.1 ∈ kept_order session_id self)
            (<[session_id := new_entry document now]> (_memory_cache self)))
         (kept_order session_id self) self).
Proof.
  intros (Hcap & Hnd & Hdom). unfold cache_ok, kept_order. cbn.
  split; [done|]. split.
  - eapply sublist_NoDup; [|apply sublist_drop]. by apply touched_order_NoDup.
  - apply kept_keys_dom.
    by rewrite dom_insert_L, Hdom, touched_order_elements.
Qed.

(** With room for one session at least, the session just touched stays. *)
Lemma kept_order_last session_id self :
  1 ≤ max_cache_size self →
  ∃ older, kept_order session_id self = older ++ [session_id].
Proof.
  intros Hcap. unfold kept_order.
  set (order := remove_first session_id (_cache_order self)).
  rewrite length_app. cbn [length].
  rewrite drop_app_le by lia. eauto.
Qed.

Lemma _update_cache_lookup now session_id document self :
  1 ≤ max_cache_size self →
  filter (λ kv, kv.1 ∈ kept_order session_id self)
         (<[session_id := new_entry document now]> (_memory_cache self))
    !! session_id
  = Some (new_entry document now).
Proof.
  intros Hcap. apply map_lookup_filter_Some. split.
  - apply lookup_insert_eq.
  - cbn. destruct (kept_order_last session_id self Hcap) as [older ->].
    set_solver.
Qed.

(** *** Cache entries *)

Lemma new_entry_messages document now :
  get_messages (new_entry document now) = [].
Proof. reflexivity. Qed.

Lemma new_entry_valid document now now' cache_ttl :
  _is_cache_valid now' cache_ttl (new_entry document now)
  = bool_decide (now' - now < cache_ttl * 1000000).
Proof.
  unfold _is_cache_valid, new_entry.
  rewrite bool_decide_eq_false_2 by apply insert_non_empty.
  reflexivity.
Qed.

(** *** [load_context] *)

Lemma load_from_file_spec now session_id self :
  cache_ok self →
  ∃ self' messages,
    load_from_file now session_id self = Returns self' messages
    ∧ cache_ok self' ∧ same_settings self self'
    ∧ sessions self' = sessions self.
Proof.
  intros Hok. unfold load_from_file, bind, gets. cbv beta iota.
  destruct (sessions self !! session_id) as [[|document]|];
    try (exists self, []; split; [done|]; split; [done|]; by repeat split).
  rewrite _update_cache_spec by done. cbn.
  eexists _, _. split; [done|].
  split; [by apply _update_cache_ok|]. by repeat split.
Qed.

(** A fresh entry answers the call, and the call changes nothing: the
    order list stays as it was. *)
Lemma load_context_hit now session_id self cached :
  _memory_cache self !! session_id = Some cached →
  _is_cache_valid now (cache_ttl self) cached = true →
  load_context now session_id self = Returns self (get_messages cached).
Proof.
  intros Hcached Hvalid. unfold load_context, bind, gets. cbv beta iota.
  by rewrite Hcached, Hvalid.
Qed.

Lemma load_context_spec now session_id self :
  cache_ok self →
  ∃ self' messages,
    load_context now session_id self = Returns self' messages
    ∧ cache_ok self' ∧ same_settings self self'
    ∧ sessions self' = sessions self.
Proof.
  intros Hok. unfold load_context, bind, gets. cbv beta iota.
  destruct (_memory_cache self !! session_id) as [cached|];
    [|by apply load_from_file_spec].
  destruct (_is_cache_valid now (cache_ttl self) cached);
    [|by apply load_from_file_spec].
  exists self, (get_messages cached).
  split; [done|]. split; [done|]. by repeat split.
Qed.

(** *** [save_context] *)

Lemma save_context_unwritable now session_id messages metadata mono self :
  writable self = false →
  save_context now session_id messages metadata mono self
  = Raises self OSError.
Proof.
  intros Hw. unfold save_context, bind, gets, try_except, write_session.
  cbv beta iota. by rewrite Hw.
Qed.

Lemma save_context_spec now session_id messages metadata mono self :
  cache_ok self → writable self = true →
  ∃ self',
    save_context now session_id messages metadata mono self = Returns self' tt
    ∧ cache_ok self' ∧ same_settings self self'
    ∧ sessions self'
      = <[session_id := Json (saved_document now session_id messages
                                metadata mono self)]> (sessions self)
    ∧ (1 ≤ max_cache_size self →
       _memory_cache self' !! session_id
       = Some (new_entry (saved_document now session_id messages
                            metadata mono self) now)).
Proof.
  intros Hok Hw. unfold save_context, bind, gets, try_except, write_session.
  cbv beta iota. rewrite Hw. cbv beta iota.
  set (document := {| session_id := session_id |}).
  set (written := with_sessions _ self).
  assert (Hok' : cache_ok written) by exact Hok.
  rewrite _update_cache_spec by done.
  eexists. split; [done|]. split; [by apply _update_cache_ok|].
  split; [by repeat split|]. split; [done|].
  intros Hcap. cbn. by apply (_update_cache_lookup now session_id document written).
Qed.

(** *** The cache stays in order *)

Lemma new_manager_cache_ok max_messages cache_ttl max_cache_size :
  0 ≤ max_cache_size →
  cache_ok (new_manager max_messages cache_ttl max_cache_size).
Proof.
  intros Hcap. split; [done|]. split; [apply NoDup_nil_2|].
  cbn. by rewrite dom_empty_L.
Qed.

Lemma clear_context_cache_ok session_id self :
  cache_ok self → writable self = true →
  ∃ self', clear_context session_id self = Returns self' tt ∧ cache_ok self'.
Proof.
  intros (Hcap & Hnd & Hdom) Hw.
  unfold clear_context, bind, gets, modify, unlink_session.
  cbv beta iota.
  destruct (sessions self !! session_id) as [file|];
    [|exists self; by repeat split].
  rewrite Hw. eexists. split; [done|]. split; [done|]. cbn.
  split; [by apply remove_first_NoDup|].
  rewrite dom_delete_L, Hdom. apply set_eq. intros key.
  rewrite elem_of_difference, !elem_of_list_to_set, elem_of_singleton.
  by rewrite remove_first_elem_of.
Qed.

(** *** [append_message] *)

(** After a call of [append_message], and for as long as the cache entry it
    leaves is fresh, [load_context] answers with the empty list. *)
Lemma load_after_append now now' session_id message self :
  cache_ok self → writable self = true → 1 ≤ max_cache_size self →
  now' - now < cache_ttl self * 1000000 →
  ∃ self',
    append_message now session_id message self = Returns self' tt
    ∧ load_context now' session_id self' = Returns self' [].
Proof.
  intros Hok Hw Hcap Hfresh. unfold append_message.
  destruct (load_context_spec now session_id self Hok)
    as (self1 & messages & Hload & Hok1 & (Hmax & Httl & Hsize & Hw1) & _).
  unfold bind at 1. rewrite Hload. unfold bind at 1, gets at 1.
  cbv beta iota zeta.
  match goal with
  | |- context [save_context now session_id ?l None None self1] =>
      destruct (save_context_spec now session_id l None None self1)
        as (self2 & Hsave & Hok2 & (_ & Httl2 & _) & _ & Hentry);
        [done|congruence|]
  end.
  exists self2. split; [done|].
  assert (Hcached := Hentry ltac:(lia)).
  rewrite (load_context_hit _ _ _ _ Hcached); [done|].
  rewrite new_entry_valid. apply bool_decide_eq_true_2. rewrite Httl2. lia.
Qed.

(** C5. Claimed: after appends that exceed [max_messages], [load_context]
    returns the trailing [max_messages] messages.  With [max_messages = 2]
    and the appends of [a], [b] and [c] one second apart, a load one second
    later returns no message at all, where [b] and [c] are expected; and
    once the cache entry has gone stale, an hour later, the file gives [c]
    alone. *)
Theorem append_then_load_loses_window :
  value_of (load_context (3 * second) "s1") after_three_appends = Some []
  ∧ value_of (load_context (3602 * second) "s1") after_three_appends
    = Some [message "user" "c"].
Proof. split; vm_compute; reflexivity. Qed.

(** *** [add_mono_context] *)

(** C1. Claimed: [add_mono_context] appends an item and saves, without
    raising.  On every manager whose cache is in order, and for every
    argument, the call raises [TypeError]: [rounds] is not a keyword of
    [timedelta].  No session file is written. *)
Theorem add_mono_context_raises (now : Z) (session_id content : string)
    (rounds : Z) (self : ContextManager) :
  cache_ok self →
  ∃ self',
    add_mono_context now session_id content rounds self
    = Raises self' TypeError
    ∧ sessions self' = sessions self.
Proof.
  intros Hok. unfold add_mono_context.
  destruct (load_context_spec now session_id self Hok)
    as (self1 & messages & Hload & _ & _ & Hfiles).
  unfold bind at 1. rewrite Hload. cbn. eauto.
Qed.

Lemma add_mono_context_raises_witness :
  cache_ok (new_manager 40 3600 100)
  ∧ ∃ self',
      add_mono_context 0 "s1" "the user likes tea" 1 (new_manager 40 3600 100)
      = Raises self' TypeError
      ∧ sessions self' = sessions (new_manager 40 3600 100).
Proof.
  assert (Hok : cache_ok (new_manager 40 3600 100)).
  { split; [cbn; lia|]. split; [apply NoDup_nil_2|]. cbn. apply dom_empty_L. }
  split; [exact Hok|].
  exact (add_mono_context_raises 0 "s1" "the user likes tea" 1 _ Hok).
Defined.

(** Whatever the state of the cache, the call does not return. *)
Lemma add_mono_context_never_returns now session_id content rounds self self' :
  add_mono_context now session_id content rounds self ≠ Returns self' tt.
Proof.
  unfold add_mono_context, bind at 1.
  destruct (load_context now session_id self); [cbn|..]; discriminate.
Qed.

(** *** [get_mono_context] *)

Lemma valid_contents_filter now mono :
  ∀ valid_contexts,
    valid_contents now mono valid_contexts
    = valid_contexts
      ++ (MonoContextItem.content <$> filter (λ item, unexpired now item) mono).
Proof.
  induction mono as [|item mono IH]; intros acc; cbn [valid_contents].
  - by rewrite app_nil_r.
  - rewrite filter_cons. destruct (unexpired now item) eqn:Hitem.
    + rewrite decide_True by done. rewrite IH, fmap_cons, <- app_assoc. done.
    + rewrite decide_False by (by intros ?). apply IH.
Qed.

Lemma valid_contents_app now before after :
  valid_contents now (before ++ after) []
  = valid_contents now before [] ++ valid_contents now after [].
Proof.
  rewrite !valid_contents_filter, filter_app, fmap_app. done.
Qed.

Lemma unexpired_naive now item expiry :
  MonoContextItem.expires_at item = IsoNaive expiry →
  unexpired now item = bool_decide (now < expiry).
Proof.
  intros Hitem. unfold unexpired. rewrite Hitem. cbn.
  destruct (Z.ltb_spec now expiry).
  - by rewrite bool_decide_eq_true_2.
  - rewrite bool_decide_eq_false_2; [done|lia].
Qed.

(** C8. An item stored with the expiry time [t0 + delta] contributes its
    content to [get_mono_context], at its place among the others, when the
    query time is before [t0 + delta], and contributes nothing from
    [t0 + delta] on.  What is returned is a subsequence of the stored
    contents, in the order of insertion. *)
Theorem get_mono_context_expiry (self : ContextManager) (session_id : string)
    (document : context) (before after : list MonoContextItem.t)
    (item : MonoContextItem.t) (t0 delta now : Z) :
  sessions self !! session_id = Some (Json document) →
  mono_context document = before ++ item :: after →
  MonoContextItem.expires_at item = isoformat (Naive (t0 + delta)) →
  get_mono_context now session_id self
  = valid_contents now before []
    ++ (if bool_decide (now < t0 + delta)
        then [MonoContextItem.content item] else [])
    ++ valid_contents now after []
  ∧ get_mono_context now session_id self
    `sublist_of` (MonoContextItem.content <$> mono_context document).
Proof.
  intros Hfile Hmono Hitem.
  unfold get_mono_context, _load_mono_context. rewrite Hfile, Hmono. split.
  - rewrite valid_contents_app. f_equal.
    change (item :: after) with ([item] ++ after).
    rewrite valid_contents_app. f_equal.
    cbn. rewrite (unexpired_naive now item (t0 + delta)) by done.
    by destruct (bool_decide (now < t0 + delta)).
  - rewrite valid_contents_filter. cbn.
    apply fmap_sublist, sublist_filter.
Qed.

Lemma get_mono_context_expiry_witness :
  get_mono_context 9 "s1" (with_mono_item "the user likes tea" (4 + 6))
  = ["the user likes tea"]
  ∧ get_mono_context 10 "s1" (with_mono_item "the user likes tea" (4 + 6))
    = [].
Proof.
  pose (item := {| MonoContextItem.content := "the user likes tea";
                   MonoContextItem.expires_at := IsoNaive 10;
                   MonoContextItem.rounds := 1 |}).
  pose (document := {| session_id := "s1"; created_at := IsoNaive 0;
                       last_active := IsoNaive 0; messages := [];
                       mono_context := [item]; memory_references := [];
                       metadata := ∅ |}).
  split.
  - exact (proj1 (get_mono_context_expiry
                    (with_mono_item "the user likes tea" (4 + 6)) "s1"
                    document [] [] item 4 6 9
                    eq_refl eq_refl eq_refl)).
  - exact (proj1 (get_mono_context_expiry
                    (with_mono_item "the user likes tea" (4 + 6)) "s1"
                    document [] [] item 4 6 10
                    eq_refl eq_refl eq_refl)).
Defined.

(** *** The recency order *)

(** C9. Claimed: a get that finds a fresh entry moves its key to the
    most-recent end, so that the key evicted is the least recently used.
    With room for two sessions: [a] and [b] are saved, [a] is then loaded
    from its fresh entry, and the order list stays [a], [b]; saving [c]
    evicts [a], the key used last, and keeps [b]. *)
Theorem fresh_hit_does_not_touch_order :
  load_context (2 * second) "a" two_cached = Returns two_cached []
  ∧ _cache_order two_cached = ["a"; "b"]
  ∧ _cache_order after_hit_and_put = ["b"; "c"]
  ∧ _memory_cache after_hit_and_put !! "a" = None
  ∧ is_Some (_memory_cache after_hit_and_put !! "b").
Proof.
  assert (Hhit : load_context (2 * second) "a" two_cached
                 = Returns two_cached []).
  { apply (load_context_hit _ _ _
             (new_entry (saved_document 0 "a" [message "user" "hello"] None
                           None (new_manager 40 3600 2)) 0)).
    - vm_compute. reflexivity.
    - vm_compute. reflexivity. }
  split; [exact Hhit|].
  unfold after_hit_and_put, state_after at 2. rewrite Hhit.
  split; [vm_compute; reflexivity|].
  split; [vm_compute; reflexivity|].
  split; [vm_compute; reflexivity|].
  vm_compute. eauto.
Qed.

(** A put moves its key to the most-recent end and, with the cache over
    its capacity, the keys that go are the first of the order list. *)
Lemma put_moves_key_to_end now session_id document self :
  cache_ok self → 1 ≤ max_cache_size self →
  ∃ self' older,
    _update_cache now session_id document self = Returns self' tt
    ∧ _cache_order self' = older ++ [session_id]
    ∧ older `suffix_of` remove_first session_id (_cache_order self)
    ∧ Z.of_nat (length (_cache_order self')) ≤ max_cache_size self.
Proof.
  intros Hok Hcap. rewrite _update_cache_spec by done.
  destruct (kept_order_last session_id self Hcap) as [older Hkept].
  eexists _, older. split; [done|]. cbn. split; [done|]. split.
  - unfold kept_order in Hkept.
    rewrite length_app in Hkept. cbn [length] in Hkept.
    rewrite drop_app_le in Hkept by lia.
    apply app_inv_tail in Hkept. rewrite <- Hkept. apply suffix_drop.
  - unfold kept_order. rewrite length_drop. lia.
Qed.

(** *** Puts alone: the eviction is first in, first out *)

Lemma remove_first_notin x l : x ∉ l → remove_first x l = l.
Proof.
  induction l as [|y l IH]; [done|]. intros Hx.
  apply not_elem_of_cons in Hx as [Hne Hx]. cbn.
  destruct (String.eqb_spec y x); [congruence|]. by rewrite IH.
Qed.

Lemma drop_overflow_app (order keys : list string) (key : string)
    (capacity : nat) :
  (length order ≤ capacity)%nat →
  drop (length (drop (length (order ++ [key]) - capacity) (order ++ [key])
                ++ keys) - capacity)
       (drop (length (order ++ [key]) - capacity) (order ++ [key]) ++ keys)
  = drop (length (order ++ key :: keys) - capacity) (order ++ key :: keys).
Proof.
  intros Hlen. rewrite !length_app, length_drop, !length_app. cbn [length].
  destruct (decide (length order = capacity)) as [Heq|Hne].
  - replace (length order + 1 - capacity)%nat with 1%nat by lia.
    replace (length order + S (length keys) - capacity)%nat
      with (1 + length keys)%nat by lia.
    replace (length order + 1 - 1 + length keys - capacity)%nat
      with (length keys) by lia.
    rewrite <- drop_drop. f_equal.
    rewrite (cons_middle key order keys), app_assoc.
    rewrite (drop_app_le (order ++ [key])); [done|].
    rewrite length_app. cbn. lia.
  - replace (length order + 1 - capacity)%nat with 0%nat by lia.
    cbn [drop]. rewrite Nat.sub_0_r.
    rewrite (cons_middle key order keys), app_assoc. f_equal. lia.
Qed.

(** After puts of distinct keys the order list holds the last
    [max_cache_size] of them, and these are the keys cached. *)
Lemma put_all_order now document keys :
  ∀ self,
    cache_ok self →
    Z.of_nat (length (_cache_order self)) ≤ max_cache_size self →
    NoDup (_cache_order self ++ keys) →
    ∃ self',
      put_all now document keys self = Returns self' tt
      ∧ cache_ok self'
      ∧ _cache_order self'
        = drop (length (_cache_order self ++ keys)
                - Z.to_nat (max_cache_size self))
            (_cache_order self ++ keys).
Proof.
  induction keys as [|key keys IH]; intros self Hok Hlen Hnd.
  - exists self. split; [done|]. split; [done|].
    rewrite app_nil_r.
    replace (_ - _)%nat with 0%nat by lia. done.
  - cbn [put_all]. unfold bind. rewrite _update_cache_spec by done.
    set (self1 := with_cache _ _ self).
    assert (Hfresh : key ∉ _cache_order self).
    { apply NoDup_app in Hnd as (_ & Hdisjoint & _).
      intros Hin. apply (Hdisjoint key Hin). by left. }
    assert (Horder : _cache_order self1
                     = drop (length (_cache_order self ++ [key])
                             - Z.to_nat (max_cache_size self))
                         (_cache_order self ++ [key])).
    { cbn. unfold kept_order. by rewrite remove_first_notin. }
    destruct (IH self1) as (self' & Hrun & Hok' & Horder').
    + by apply _update_cache_ok.
    + rewrite Horder, length_drop, length_app. cbn. lia.
    + rewrite Horder.
      eapply sublist_NoDup; [exact Hnd|].
      rewrite (cons_middle key (_cache_order self) keys), app_assoc.
      apply sublist_app; [apply sublist_drop|done].
    + exists self'. split; [done|]. split; [done|].
      rewrite Horder', Horder. cbn [max_cache_size with_cache self1].
      apply drop_overflow_app. lia.
Qed.

(** One key more than the cache holds, into an empty cache: the first key
    put is the one that is absent afterwards, all the others are cached. *)
Lemma put_all_evicts_first now document first others self :
  cache_ok self → _cache_order self = [] →
  NoDup (first :: others) →
  Z.of_nat (length others) = max_cache_size self →
  ∃ self',
    put_all now document (first :: others) self = Returns self' tt
    ∧ _cache_order self' = others
    ∧ _memory_cache self' !! first = None
    ∧ ∀ key, key ∈ others → is_Some (_memory_cache self' !! key).
Proof.
  intros Hok Hempty Hnd Hsize.
  destruct (put_all_order now document (first :: others) self)
    as (self' & Hrun & (Hcap & Hnd' & Hdom) & Horder); [done|..].
  - rewrite Hempty. cbn. lia.
  - by rewrite Hempty.
  - rewrite Hempty in Horder. cbn [app length] in Horder.
    replace (S (length others) - Z.to_nat (max_cache_size self))%nat
      with 1%nat in Horder by lia.
    cbn [drop] in Horder.
    exists self'. split; [done|]. split; [done|].
    apply NoDup_cons in Hnd as [Hfirst _]. split.
    + apply not_elem_of_dom. rewrite Hdom, Horder.
      by rewrite elem_of_list_to_set.
    + intros key Hkey. apply elem_of_dom. rewrite Hdom, Horder.
      by rewrite elem_of_list_to_set.
Qed.

(** *** The sliding window, when every load reads the file *)

(** Cutting to the last [limit] after each message leaves what one cut at
    the end leaves. *)
Lemma slice_from_step {A} (limit : Z) (l : list A) (x : A) :
  0 ≤ limit →
  (let l' := slice_from (- limit) l ++ [x] in
   if Z.of_nat (length l') >? limit then slice_from (- limit) l' else l')
  = slice_from (- limit) (l ++ [x]).
Proof.
  intros Hlimit. cbv zeta. unfold slice_from.
  destruct (Z.ltb_spec (- limit) 0) as [Hpos|Hzero].
  - rewrite !length_app, !length_drop. cbn [length].
    destruct (Z.gtb_spec
                (Z.of_nat (length l - Z.to_nat (0 `max` (- limit + Z.of_nat (length l)))
                           + 1)) limit) as [Hover|Hfits].
    + rewrite drop_app_le by (rewrite length_drop; lia).
      rewrite drop_app_le by lia.
      rewrite drop_drop. f_equal. f_equal. lia.
    + rewrite drop_app_le by lia. f_equal. f_equal. lia.
  - assert (limit = 0) as -> by lia. rewrite Z.opp_0.
    rewrite !Z.min_l by lia. change (Z.to_nat 0) with 0%nat.
    rewrite !drop_0, length_app. cbn [length].
    destruct (Z.gtb_spec (Z.of_nat (length l + 1)) 0); [done|lia].
Qed.

Lemma _update_cache_uncached now session_id document self :
  uncached self →
  _update_cache now session_id document self
  = Returns (with_cache ∅ [] self) tt.
Proof.
  intros (Hsize & Hcache & Horder). unfold _update_cache.
  rewrite Hsize, Hcache, Horder. cbn [remove_first app].
  rewrite evict_cons, insert_empty, map_size_singleton. cbn [Z.of_nat Z.gtb Z.compare Pos.of_succ_nat].
  by rewrite delete_singleton_eq, evict_nil, map_size_empty.
Qed.

Lemma load_context_uncached now session_id self :
  uncached self →
  load_context now session_id self
  = match sessions self !! session_id with
    | Some (Json document) =>
        Returns (with_cache ∅ [] self) (messages document)
    | Some Unreadable | None => Returns self []
    end.
Proof.
  intros Hun. pose proof Hun as (_ & Hcache & _).
  unfold load_context, bind, gets. cbv beta iota. rewrite Hcache, lookup_empty.
  unfold load_from_file, bind, gets. cbv beta iota.
  destruct (sessions self !! session_id) as [[|document]|]; [done| |done].
  by rewrite _update_cache_uncached.
Qed.

Lemma append_message_uncached now session_id message self :
  uncached self → writable self = true →
  ∃ self',
    append_message now session_id message self = Returns self' tt
    ∧ uncached self' ∧ writable self' = true
    ∧ max_messages self' = max_messages self
    ∧ stored_messages session_id self'
      = (let l' := stored_messages session_id self ++ [message] in
         if Z.of_nat (length l') >? max_messages self
         then slice_from (- max_messages self) l' else l').
Proof.
  intros Hun Hw. unfold append_message, bind at 1.
  rewrite load_context_uncached by done. unfold stored_messages.
  assert (Hsave : ∀ self1 l,
            uncached self1 → writable self1 = true →
            ∃ self',
              save_context now session_id l None None self1 = Returns self' tt
              ∧ uncached self' ∧ writable self' = true
              ∧ max_messages self' = max_messages self1
              ∧ stored_messages session_id self' = l).
  { intros self1 l Hun1 Hw1.
    unfold save_context, bind, gets, try_except, write_session.
    cbv beta iota. rewrite Hw1. cbv beta iota.
    rewrite _update_cache_uncached by exact Hun1.
    eexists. split; [done|]. split; [by repeat split; apply Hun1|].
    split; [done|]. split; [done|].
    unfold stored_messages. cbn. by rewrite lookup_insert_eq. }
  destruct (sessions self !! session_id) as [[|document]|];
    unfold bind, gets; cbv beta iota zeta; cbn [max_messages with_cache].
  - destruct (Hsave self
                (if Z.of_nat (length ([] ++ [message])) >? max_messages self
                 then slice_from (- max_messages self) ([] ++ [message])
                 else [] ++ [message]))
      as (self' & -> & ? & ? & ? & ?); [done..|]. by exists self'.
  - destruct (Hsave (with_cache ∅ [] self)
                (if Z.of_nat (length (messages document ++ [message]))
                    >? max_messages self
                 then slice_from (- max_messages self)
                        (messages document ++ [message])
                 else messages document ++ [message]))
      as (self' & Hrun & ? & ? & ? & ?);
      [by repeat split; apply Hun|done|].
    exists self'. by rewrite Hrun.
  - destruct (Hsave self
                (if Z.of_nat (length ([] ++ [message])) >? max_messages self
                 then slice_from (- max_messages self) ([] ++ [message])
                 else [] ++ [message]))
      as (self' & -> & ? & ? & ? & ?); [done..|]. by exists self'.
Qed.

Lemma append_all_uncached session_id calls :
  ∀ self earlier,
    uncached self → writable self = true → 0 ≤ max_messages self →
    stored_messages session_id self
    = slice_from (- max_messages self) earlier →
    ∃ self',
      append_all session_id calls self = Returns self' tt
      ∧ uncached self'
      ∧ stored_messages session_id self'
        = slice_from (- max_messages self) (earlier ++ calls.*2).
Proof.
  induction calls as [|[now message] calls IH];
    intros self earlier Hun Hw Hlimit Hstored.
  - exists self. rewrite app_nil_r. split; [done|]. by split.
  - cbn [append_all]. unfold bind.
    destruct (append_message_uncached now session_id message self)
      as (self1 & -> & Hun1 & Hw1 & Hmax1 & Hstored1); [done..|].
    rewrite Hstored, slice_from_step in Hstored1 by done.
    destruct (IH self1 (earlier ++ [message]))
      as (self' & Hrun & Hun' & Hstored'); [done|done|lia|by rewrite Hmax1|].
    exists self'. split; [done|]. split; [done|].
    rewrite Hstored', Hmax1. cbn [fmap list_fmap snd].
    by rewrite <- app_assoc.
Qed.

(** What C5 claims does hold where the cache cannot answer.  On a manager
    without room in its cache, and for a session that has no file yet,
    [load_context] after any sequence of [append_message] calls returns the
    trailing [max_messages] messages in the order of the calls. *)
Lemma sliding_window_without_cache session_id calls now self :
  uncached self → writable self = true → 0 ≤ max_messages self →
  sessions self !! session_id = None →
  ∃ self',
    append_all session_id calls self = Returns self' tt
    ∧ value_of (load_context now session_id) self'
      = Some (slice_from (- max_messages self) (calls.*2)).
Proof.
  intros Hun Hw Hlimit Hfile.
  destruct (append_all_uncached session_id calls self [])
    as (self' & Hrun & Hun' & Hstored); [done..| |].
  { unfold stored_messages, slice_from. by rewrite Hfile, drop_nil. }
  exists self'. split; [done|].
  unfold value_of. rewrite load_context_uncached by done.
  cbn [app] in Hstored. rewrite <- Hstored. unfold stored_messages.
  by destruct (sessions self' !! session_id) as [[|document]|].
Qed.

End ContextFacts.

(** ** Facts about the event log store *)

Module DanmakuFacts.
Import Py Danmaku DanmakuScenario.
#[local] Open Scope py_scope.
#[local] Set Warnings "-clear-no-such-hyp".

(** *** Lists *)

Lemma sublist_reverse {A} (l k : list A) :
  l `sublist_of` k → reverse l `sublist_of` reverse k.
Proof.
  induction 1 as [|x l k _ IH|x l k _ IH]; rewrite ?reverse_cons.
  - constructor.
  - by apply sublist_app.
  - by apply sublist_inserts_r.
Qed.

Lemma slice_from_sublist {A} start (l : list A) :
  slice_from start l `sublist_of` l.
Proof. apply sublist_drop. Qed.

(** A slice that counts from the end keeps a suffix that is no longer than
    what it asks for. *)
Lemma slice_from_keeps_suffix {A} start (older suffix : list A) :
  start < 0 → Z.of_nat (length suffix) ≤ - start →
  ∃ i, slice_from start (older ++ suffix) = drop i older ++ suffix.
Proof.
  intros Hneg Hlen. unfold slice_from. rewrite length_app.
  destruct (Z.ltb_spec start 0); [|lia].
  eexists. apply drop_app_le. lia.
Qed.

(** *** The loop of [get_recent_danmaku] *)

(** What a run of the loop that ends well has added: messages of lines it
    visited, in the order of the visit, each of which the two filters let
    through. *)
Lemma collect_spec count platform since lines :
  ∀ danmaku_list result,
    collect count platform since lines danmaku_list = Ok result →
    ∃ added,
      result = danmaku_list ++ added
      ∧ (Entry <$> added) `sublist_of` lines
      ∧ Forall (λ danmaku, platform_skips platform danmaku = false
                           ∧ since_skips since danmaku = false) added.
Proof.
  induction lines as [|line lines IH]; intros acc result; cbn [collect].
  - intros [= <-]. exists []. rewrite app_nil_r. by repeat constructor.
  - destruct line as [| |data]; cbn [strip json_loads].
    + intros (added & -> & Hsub & Hpass)%IH.
      exists added. split; [done|]. split; [by constructor|done].
    + discriminate.
    + destruct (platform_skips platform data) eqn:Hplatform;
        [|destruct (since_skips since data) eqn:Hsince].
      * intros (added & -> & Hsub & Hpass)%IH.
        exists added. split; [done|]. split; [by constructor|done].
      * intros (added & -> & Hsub & Hpass)%IH.
        exists added. split; [done|]. split; [by constructor|done].
      * destruct (Z.of_nat (length (acc ++ [data])) >=? count).
        -- intros [= <-]. exists [data]. split; [done|].
           split; [cbn; constructor; apply sublist_nil_l|].
           by repeat constructor.
        -- intros (added & -> & Hsub & Hpass)%IH.
           exists (data :: added). rewrite <- app_assoc. split; [done|].
           split; [cbn; by constructor|]. by constructor.
Qed.

Lemma collect_length count platform since lines :
  ∀ danmaku_list result,
    collect count platform since lines danmaku_list = Ok result →
    Z.of_nat (length result)
    ≤ Z.max count (Z.of_nat (length danmaku_list) + 1).
Proof.
  induction lines as [|line lines IH]; intros acc result; cbn [collect].
  - intros [= <-]. lia.
  - destruct line as [| |data]; cbn [strip json_loads];
      [apply IH|discriminate|].
    destruct (platform_skips platform data); [apply IH|].
    destruct (since_skips since data); [apply IH|].
    destruct (Z.geb_spec (Z.of_nat (length (acc ++ [data]))) count) as [Hge|Hlt].
    + intros [= <-]. rewrite length_app. cbn. lia.
    + intros Hrun%IH. rewrite length_app in *. cbn in *. lia.
Qed.

(** A line that is not JSON ends the loop with an exception, when fewer
    than [count] messages have been appended by the time it is visited. *)
Lemma collect_garbage count platform since lines rest :
  ∀ danmaku_list,
    Forall is_entry lines →
    Z.of_nat (length danmaku_list) + Z.of_nat (length lines) < count →
    collect count platform since (lines ++ Garbage :: rest) danmaku_list
    = Error JSONDecodeError.
Proof.
  induction lines as [|line lines IH]; intros acc Hentries Hroom.
  - reflexivity.
  - apply Forall_cons in Hentries as [[data ->] Hentries].
    cbn [app collect strip json_loads]. cbn [length] in Hroom.
    destruct (platform_skips platform data); [apply IH; [done|lia]|].
    destruct (since_skips since data); [apply IH; [done|lia]|].
    destruct (Z.geb_spec (Z.of_nat (length (acc ++ [data]))) count) as [Hge|Hlt].
    + rewrite length_app in Hge. cbn in Hge. lia.
    + apply IH; [done|]. rewrite length_app. cbn. lia.
Qed.

(** Without such a line the loop ends well. *)
Lemma collect_runs count platform since lines :
  ∀ danmaku_list,
    Forall (λ line, line ≠ Garbage) lines →
    ∃ result, collect count platform since lines danmaku_list = Ok result.
Proof.
  induction lines as [|line lines IH]; intros acc Hlines; [by eexists|].
  apply Forall_cons in Hlines as [Hline Hlines]. cbn [collect].
  destruct line as [| |data]; cbn [strip json_loads]; [by apply IH|done|].
  destruct (platform_skips platform data); [by apply IH|].
  destruct (since_skips since data); [by apply IH|].
  destruct (_ >=? _); [by eexists|by apply IH].
Qed.

(** *** [get_recent_danmaku] *)

(** The messages returned are lines of the slice that was read, in the
    order of the file: the oldest comes first. *)
Lemma get_recent_danmaku_window self count only_raw platform since :
  (Entry <$> get_recent_danmaku self count only_raw platform since)
  `sublist_of`
  slice_from (- Z.min count 100 * 2)
    (default [] (lines_of (if only_raw then raw_file else audited_file) self)).
Proof.
  unfold get_recent_danmaku.
  destruct (lines_of _ self) as [lines|]; [|apply sublist_nil_l].
  cbn [default].
  destruct (collect _ _ _ _ _) as [result|e] eqn:Hrun; [|apply sublist_nil_l].
  apply collect_spec in Hrun as (added & -> & Hsub & _). cbn [app].
  apply sublist_reverse in Hsub. rewrite reverse_involutive in Hsub.
  by rewrite fmap_reverse.
Qed.

Lemma get_recent_danmaku_file_order self count only_raw platform since :
  (Entry <$> get_recent_danmaku self count only_raw platform since)
  `sublist_of`
  default [] (lines_of (if only_raw then raw_file else audited_file) self).
Proof.
  etrans; [apply get_recent_danmaku_window|apply slice_from_sublist].
Qed.

Lemma get_recent_danmaku_length self count only_raw platform since :
  Z.of_nat (length (get_recent_danmaku self count only_raw platform since))
  ≤ Z.max 1 (Z.min count 100).
Proof.
  unfold get_recent_danmaku.
  destruct (lines_of _ self) as [lines|]; [|cbn; lia].
  destruct (collect _ _ _ _ _) as [result|e] eqn:Hrun; [|cbn; lia].
  apply collect_length in Hrun. rewrite length_reverse. cbn in Hrun. lia.
Qed.

Lemma get_recent_danmaku_filters self count only_raw platform since danmaku :
  danmaku ∈ get_recent_danmaku self count only_raw platform since →
  platform_skips platform danmaku = false
  ∧ since_skips since danmaku = false.
Proof.
  unfold get_recent_danmaku.
  destruct (lines_of _ self) as [lines|]; [|by intros ?%elem_of_nil].
  destruct (collect _ _ _ _ _) as [result|e] eqn:Hrun;
    [|by intros ?%elem_of_nil].
  apply collect_spec in Hrun as (added & -> & _ & Hpass). cbn [app].
  rewrite elem_of_reverse. intros Hin.
  by apply (proj1 (Forall_forall _ _) Hpass).
Qed.

(** *** A log without unreadable lines, read whole *)

Lemma records_of_app l k : records_of (l ++ k) = records_of l ++ records_of k.
Proof. apply omap_app. Qed.

Lemma records_of_reverse l : records_of (reverse l) = reverse (records_of l).
Proof.
  induction l as [|line l IH]; [done|].
  rewrite reverse_cons, records_of_app, IH.
  destruct line as [| |data].
  - change (records_of [Blank]) with (@nil DanmakuMessage).
    by rewrite app_nil_r.
  - change (records_of [Garbage]) with (@nil DanmakuMessage).
    by rewrite app_nil_r.
  - change (records_of [Entry data]) with [data].
    change (records_of (Entry data :: l)) with (data :: records_of l).
    by rewrite reverse_cons.
Qed.

(** Without filters, without a line that is not JSON, and with no more
    records ahead than [count] asks for, the loop appends every record. *)
Lemma collect_all count lines :
  ∀ danmaku_list,
    Forall (λ line, line ≠ Garbage) lines →
    Z.of_nat (length danmaku_list) + Z.of_nat (length (records_of lines))
    ≤ count →
    collect count None None lines danmaku_list
    = Ok (danmaku_list ++ records_of lines).
Proof.
  induction lines as [|line lines IH]; intros acc Hlines Hroom.
  - by rewrite app_nil_r.
  - apply Forall_cons in Hlines as [Hline Hlines].
    destruct line as [| |data]; cbn [collect strip json_loads];
      [by apply IH|done|].
    cbn [platform_skips since_skips].
    change (records_of (Entry data :: lines))
      with (data :: records_of lines) in *.
    cbn [length] in Hroom.
    destruct (Z.geb_spec (Z.of_nat (length (acc ++ [data]))) count)
      as [Hfull|Hmore].
    + rewrite length_app in Hfull. cbn [length] in Hfull.
      assert (records_of lines = []) as ->
        by (apply nil_length_inv; lia).
      done.
    + rewrite IH; [by rewrite <- app_assoc|done|].
      rewrite length_app. cbn [length]. lia.
Qed.

(** A log that fits the slice read, with blank lines at most among its
    records: the call returns its records in the order of the file, the
    oldest first, and a blank line counts for nothing. *)
Lemma get_recent_danmaku_whole_file self count (only_raw : bool)
    (file : list log_line) :
  lines_of (if only_raw then raw_file else audited_file) self = Some file →
  Forall (λ line, line ≠ Garbage) file →
  Z.of_nat (length file) ≤ 2 * Z.min count 100 →
  Z.of_nat (length (records_of file)) ≤ Z.min count 100 →
  get_recent_danmaku self count only_raw None None = records_of file.
Proof.
  intros Hfile Hlines Hfits Hroom. unfold get_recent_danmaku. rewrite Hfile.
  assert (Hwhole : slice_from (- Z.min count 100 * 2) file = file).
  { unfold slice_from.
    destruct (Z.ltb_spec (- count `min` 100 * 2) 0).
    - replace (Z.to_nat _) with 0%nat by lia. done.
    - replace (Z.to_nat _) with 0%nat by lia. done. }
  rewrite Hwhole, collect_all.
  - cbn [app]. by rewrite records_of_reverse, reverse_involutive.
  - by apply Forall_reverse.
  - rewrite records_of_reverse, length_reverse. cbn. lia.
Qed.

(** *** A log of records, read without filters *)

(** The loop takes the records it visits until it has [count] of them. *)
Lemma collect_take count records :
  ∀ danmaku_list,
    Z.of_nat (length danmaku_list) < count →
    collect count None None (Entry <$> records) danmaku_list
    = Ok (danmaku_list
          ++ take (Z.to_nat count - length danmaku_list) records).
Proof.
  induction records as [|data records IH]; intros acc Hroom.
  - by rewrite take_nil, app_nil_r.
  - cbn [fmap list_fmap collect strip json_loads platform_skips since_skips].
    destruct (Z.geb_spec (Z.of_nat (length (acc ++ [data]))) count)
      as [Hfull|Hmore]; rewrite length_app in *; cbn [length] in *.
    + replace (Z.to_nat count - length acc)%nat with 1%nat by lia.
      done.
    + rewrite IH by (rewrite length_app; cbn [length]; lia).
      rewrite length_app. cbn [length].
      replace (Z.to_nat count - length acc)%nat
        with (S (Z.to_nat count - (length acc + 1))) by lia.
      by rewrite <- app_assoc.
Qed.

(** On a log of records the call returns [records[-min(count, 100):]]: the
    last records of the file, in the order of the file. *)
Lemma get_recent_danmaku_last_records self count (only_raw : bool)
    (records : list DanmakuMessage) :
  lines_of (if only_raw then raw_file else audited_file) self
  = Some (Entry <$> records) →
  1 ≤ count →
  get_recent_danmaku self count only_raw None None
  = slice_from (- Z.min count 100) records.
Proof.
  intros Hfile Hcount. unfold get_recent_danmaku. rewrite Hfile.
  unfold slice_from. rewrite length_fmap.
  destruct (Z.ltb_spec (- Z.min count 100 * 2) 0); [|lia].
  destruct (Z.ltb_spec (- Z.min count 100) 0); [|lia].
  rewrite <- fmap_drop, <- fmap_reverse, collect_take by (cbn; lia).
  cbn [app length]. rewrite Nat.sub_0_r, reverse_take, reverse_involutive.
  rewrite length_reverse, length_drop, drop_drop. f_equal. lia.
Qed.

(** C4. Claimed: the sequence [get_recent_danmaku] returns has the newest
    record first, and at most [min(count, 100)] records.  With [e1] logged
    before [e2], the call returns [e1] before [e2]: the oldest first.  And
    a [count] of [0] brings one record back. *)
Theorem recent_returns_oldest_first :
  raw_lines two_logged = Some [Entry e1; Entry e2]
  ∧ get_recent_danmaku two_logged 10 true None None = [e1; e2]
  ∧ get_recent_danmaku two_logged 0 true None None = [e2].
Proof. repeat split; vm_compute; reflexivity. Qed.

(** *** A line that is not JSON *)

Lemma count_audited_garbage before after :
  ∀ audited approved rejected,
    Forall is_entry before →
    count_audited (before ++ Garbage :: after) audited approved rejected
    = Error JSONDecodeError.
Proof.
  induction before as [|line before IH]; intros a b c Hentries; [done|].
  apply Forall_cons in Hentries as [[data ->] Hentries].
  cbn [app count_audited strip json_loads].
  destruct (String.eqb _ _); [by apply IH|].
  destruct (String.eqb _ _); by apply IH.
Qed.

(** The loop of [get_statistics] ends well on blank lines and records. *)
Lemma count_audited_runs file :
  ∀ audited approved rejected,
    Forall (λ line, line ≠ Garbage) file →
    ∃ counts, count_audited file audited approved rejected = Ok counts.
Proof.
  induction file as [|line file IH]; intros a b c Hlines; [by eexists|].
  apply Forall_cons in Hlines as [Hline Hlines].
  destruct line as [| |data]; [by apply IH|done|].
  cbn [count_audited strip json_loads].
  destruct (String.eqb _ _); [by apply IH|].
  destruct (String.eqb _ _); by apply IH.
Qed.

(** C2, as amended.  A log has well-formed lines and one line that is not
    JSON, and fewer than [min(count, 100)] lines follow that line, so that
    the loop visits it.  Then [get_recent_danmaku] returns the empty list,
    whatever the filters.  [get_statistics] counts every line of the raw
    log, the unreadable one too: it returns that number as [raw_count]
    whenever the audited log has no line that is not JSON, and it raises
    when the unreadable line is in the audited log. *)
Theorem garbage_line_blanks_feed (self : DanmakuCacheManager)
    (only_raw : bool) (before after : list log_line) (count : Z)
    (platform : option string) (since : option iso_text) :
  lines_of (if only_raw then raw_file else audited_file) self
  = Some (before ++ Garbage :: after) →
  Forall is_entry (before ++ after) →
  Z.of_nat (length after) < Z.min count 100 →
  get_recent_danmaku self count only_raw platform since = []
  ∧ if only_raw
    then (∀ stats, get_statistics self = Ok stats →
                   raw_count stats = Z.of_nat (length (before ++ after)) + 1)
         ∧ (Forall (λ line, line ≠ Garbage) (default [] (audited_lines self)) →
            ∃ stats,
              get_statistics self = Ok stats
              ∧ raw_count stats = Z.of_nat (length (before ++ after)) + 1
              ∧ pending_count stats
                = Z.of_nat (length (before ++ after)) + 1)
    else get_statistics self = Error JSONDecodeError.
Proof.
  intros Hfile [Hbefore Hafter]%Forall_app Hroom. split.
  - unfold get_recent_danmaku. rewrite Hfile.
    destruct (slice_from_keeps_suffix (- Z.min count 100 * 2) before
                (Garbage :: after)) as [i ->]; [lia|cbn [length]; lia|].
    rewrite reverse_app, reverse_cons, <- app_assoc. cbn [app].
    rewrite collect_garbage; [done|by apply Forall_reverse|].
    rewrite length_reverse. cbn. lia.
  - destruct only_raw; cbn [lines_of] in Hfile.
    + split.
      * intros stats. unfold get_statistics. rewrite Hfile.
        destruct (count_audited _ _ _ _) as [[[a b] c]|]; [|done].
        intros [= <-]. cbn. rewrite !length_app. cbn. lia.
      * intros Haudited. unfold get_statistics. rewrite Hfile.
        destruct (count_audited_runs (default [] (audited_lines self)) 0 0 0
                    Haudited) as [[[a b] c] ->].
        eexists. split; [done|]. cbn. rewrite !length_app. cbn. lia.
    + unfold get_statistics. rewrite Hfile.
      change (default [] (Some ?l)) with l.
      by rewrite count_audited_garbage.
Qed.

Lemma garbage_line_blanks_feed_witness :
  get_recent_danmaku garbled 10 true None None = []
  ∧ (∃ stats, get_statistics garbled = Ok stats
              ∧ raw_count stats = 2 + 1
              ∧ pending_count stats = 2 + 1)
  ∧ get_statistics garbled_audited = Error JSONDecodeError.
Proof.
  assert (Hentries : Forall is_entry ([Entry e1] ++ [Entry e2])).
  { repeat constructor; by eexists. }
  assert (Hroom : Z.of_nat (length [Entry e2]) < Z.min 10 100) by (cbn; lia).
  split; [|split].
  - exact (proj1 (garbage_line_blanks_feed garbled true [Entry e1] [Entry e2]
                    10 None None eq_refl Hentries Hroom)).
  - exact (proj2 (proj2 (garbage_line_blanks_feed garbled true [Entry e1]
                           [Entry e2] 10 None None eq_refl Hentries Hroom))
             (List.Forall_nil _)).
  - exact (proj2 (garbage_line_blanks_feed garbled_audited false
                    [Entry e1] [Entry e2] 10 None None eq_refl Hentries Hroom)).
Defined.

(** C2, as claimed, fails on two records with a line between them that is
    not JSON: the call returns no record, and the raw count is three. *)
Lemma garbage_line_counterexample : ¬ returns_the_valid_records garbled 10.
Proof.
  intros (file & stats & [= <-] & Hrecent & _). vm_compute in Hrecent.
  discriminate.
Qed.

(** *** [get_danmaku_by_id] *)

Lemma first_with_id_None danmaku_id l :
  (∀ danmaku, danmaku ∈ l → id danmaku ≠ danmaku_id) →
  first_with_id danmaku_id l = None.
Proof.
  induction l as [|danmaku l IH]; intros Hids; [done|]. cbn.
  destruct (String.eqb_spec (id danmaku) danmaku_id) as [Heq|_].
  - destruct (Hids danmaku); [left|done].
  - apply IH. intros other Hin. apply Hids. by right.
Qed.

Lemma first_with_id_app danmaku_id l k :
  first_with_id danmaku_id (l ++ k)
  = match first_with_id danmaku_id l with
    | Some danmaku => Some danmaku
    | None => first_with_id danmaku_id k
    end.
Proof.
  induction l as [|danmaku l IH]; [done|]. cbn.
  by destruct (String.eqb (id danmaku) danmaku_id).
Qed.

Lemma by_id_reads_window self only_raw danmaku :
  danmaku ∈ get_recent_danmaku self 1000 only_raw None None →
  Entry danmaku
  ∈ tail_window (lines_of (if only_raw then raw_file else audited_file) self).
Proof.
  intros Hin. eapply elem_of_sublist;
    [|apply (get_recent_danmaku_window self 1000 only_raw None None)].
  by apply list_elem_of_fmap_2.
Qed.

(** C10. [get_danmaku_by_id] asks for 1000 records, the count is cut down
    to 100 and the last 200 lines of a log are all that is read: when no
    record among those lines has the id, the call reports [None], whatever
    the lines before them hold. *)
Theorem by_id_searches_tail_only (self : DanmakuCacheManager)
    (danmaku_id : string) (only_raw : bool) :
  (∀ danmaku, Entry danmaku ∈ tail_window (raw_lines self) →
              id danmaku ≠ danmaku_id) →
  (∀ danmaku, Entry danmaku ∈ tail_window (audited_lines self) →
              id danmaku ≠ danmaku_id) →
  get_danmaku_by_id self danmaku_id only_raw = None.
Proof.
  intros Hraw Haudited. unfold get_danmaku_by_id.
  rewrite first_with_id_None.
  - destruct only_raw; [done|]. apply first_with_id_None.
    intros danmaku Hin. apply Haudited.
    by apply (by_id_reads_window self false).
  - intros danmaku Hin. apply Hraw. by apply (by_id_reads_window self true).
Qed.

Lemma by_id_searches_tail_only_witness :
  Entry e1 ∈ default [] (raw_lines long_log)
  ∧ id e1 = "e1"
  ∧ get_danmaku_by_id long_log "e1" false = None.
Proof.
  split; [left|]. split; [done|].
  apply by_id_searches_tail_only.
  - assert (Hwindow : tail_window (raw_lines long_log)
                      = replicate 200 (Entry e2)) by (vm_compute; reflexivity).
    intros danmaku. rewrite Hwindow. intros [[= ->] _]%elem_of_replicate.
    discriminate.
  - intros danmaku Hin. vm_compute in Hin. by apply elem_of_nil in Hin.
Defined.

(** *** [cleanup_old_danmaku] *)

Lemma cleanup_scan_filter cutoff_time file :
  ∀ lines,
    Forall is_entry file →
    cleanup_scan cutoff_time file lines
    = Ok (lines ++ filter (λ line, keeps cutoff_time line) file).
Proof.
  induction file as [|line file IH]; intros lines Hentries.
  - by rewrite app_nil_r.
  - apply Forall_cons in Hentries as [[data ->] Hentries].
    cbn [cleanup_scan strip json_loads]. rewrite filter_cons. cbn [keeps].
    destruct (retained cutoff_time data).
    + rewrite decide_True by done. rewrite IH by done.
      by rewrite <- app_assoc.
    + rewrite decide_False by (by intros ?). by apply IH.
Qed.

(** A record goes when its time stamp parses, compares with the cutoff and
    is not after it. *)
Lemma retained_false cutoff_time data :
  retained cutoff_time data = false
  ↔ ∃ t, fromisoformat (timestamp data) = Ok t
         ∧ dt_gt t cutoff_time = Ok false.
Proof.
  unfold retained. split.
  - destruct (fromisoformat (timestamp data)) as [t|]; [|done].
    destruct (dt_gt t cutoff_time) as [[]|] eqn:Hgt; [done| |done].
    intros _. by exists t.
  - intros (t & -> & ->). done.
Qed.

Lemma cleanup_old_danmaku_cutoff now days self :
  cleanup_old_danmaku now days self
  = let days :=
      match days with
      | None => retention_days self
      | Some d => if d =? 0 then retention_days self else d
      end in
    bind (_cleanup_file raw_file (Naive (now - (days * 86400000000 + 0))))
      (λ _, _cleanup_file audited_file
              (Naive (now - (days * 86400000000 + 0)))) self.
Proof. reflexivity. Qed.

(** C7, as amended.  On a log of well-formed record lines, and with the
    disk taking the write, [_cleanup_file] rewrites the file to those of
    its lines, in their order, whose record is kept.  A record goes exactly
    when its time stamp parses, compares with the cutoff and is at or
    before it: the cutoff itself is on the side of what goes.  A record
    stays when its time stamp is after the cutoff, does not parse, or
    carries a time zone. *)
Theorem cleanup_file_retention (self : DanmakuCacheManager)
    (file_path : log_file) (file : list log_line) (cutoff_time : datetime) :
  lines_of file_path self = Some file →
  Forall is_entry file →
  writable self = true →
  ∃ kept,
    _cleanup_file file_path cutoff_time self
    = Returns (with_lines file_path kept self) tt
    ∧ kept = filter (λ line, keeps cutoff_time line) file
    ∧ removes_exactly_not_after cutoff_time file kept.
Proof.
  intros Hfile Hentries Hw. eexists. split; [|split; [reflexivity|]].
  - unfold _cleanup_file, bind, gets. cbv beta iota. rewrite Hfile.
    rewrite cleanup_scan_filter by done. cbn [lift app ret].
    unfold write_lines. by rewrite Hw.
  - intros data Hin. rewrite <- retained_false, list_elem_of_filter.
    cbn [keeps]. destruct (retained cutoff_time data); naive_solver.
Qed.

Lemma cleanup_file_retention_witness :
  ∃ kept,
    _cleanup_file raw_file (Naive 1500000) two_logged
    = Returns (with_lines raw_file kept two_logged) tt
    ∧ kept = [Entry e2]
    ∧ removes_exactly_not_after (Naive 1500000) [Entry e1; Entry e2] kept.
Proof.
  assert (Hentries : Forall is_entry [Entry e1; Entry e2]).
  { repeat constructor; by eexists. }
  exact (cleanup_file_retention two_logged raw_file [Entry e1; Entry e2]
           (Naive 1500000) eq_refl Hentries eq_refl).
Defined.

(** C7, as claimed, fails for a record whose time stamp is the cutoff: it
    does not fall before the cutoff, and [cleanup_old_danmaku], called
    seven days after the time stamp, removes it. *)
Lemma cleanup_at_cutoff_counterexample :
  ∃ kept,
    seven_days_later - 7 * 86400000000 = 100
    ∧ raw_lines (state_after (cleanup_old_danmaku seven_days_later None)
                   at_cutoff) = Some kept
    ∧ ¬ removes_exactly_before (Naive 100)
          [Entry (danmaku "e0" "bye" 100)] kept.
Proof.
  exists []. split; [reflexivity|]. split; [vm_compute; reflexivity|].
  intros Hclaim.
  destruct (proj1 (Hclaim (danmaku "e0" "bye" 100) ltac:(left)))
    as (t & [= <-] & Hlt); [apply not_elem_of_nil|].
  vm_compute in Hlt. discriminate.
Qed.

(** *** The raw log and the audited log *)

Lemma set_audit_twice danmaku raw1 status1 result1 raw2 status2 result2 :
  set_audit (set_audit danmaku raw1 status1 result1) raw2 status2 result2
  = set_audit danmaku raw2 status2 result2.
Proof. reflexivity. Qed.

Lemma add_raw_danmaku_writable danmaku self :
  writable self = true →
  add_raw_danmaku danmaku self
  = Returns (with_lines raw_file
               (default [] (raw_lines self) ++ [Entry (pending danmaku)]) self)
      (pending danmaku).
Proof.
  intros Hw. unfold add_raw_danmaku, bind, try_except, append_line.
  by rewrite Hw.
Qed.

Lemma add_audited_danmaku_writable danmaku audit_result self :
  writable self = true →
  add_audited_danmaku danmaku audit_result self
  = Returns (with_lines audited_file
               (default [] (audited_lines self)
                ++ [Entry (audited danmaku audit_result)]) self)
      (audited danmaku audit_result).
Proof.
  intros Hw. unfold add_audited_danmaku, bind, try_except, append_line.
  by rewrite Hw.
Qed.

(** The record just added is the one [get_danmaku_by_id] finds, when the
    raw log has no line that is not JSON and no other record of that id. *)
Lemma by_id_finds_last self file danmaku :
  raw_lines self = Some (file ++ [Entry danmaku]) →
  Forall (λ line, line ≠ Garbage
                  ∧ ∀ other, line = Entry other → id other ≠ id danmaku) file →
  get_danmaku_by_id self (id danmaku) true = Some danmaku.
Proof.
  intros Hfile Hlines. unfold get_danmaku_by_id, get_recent_danmaku.
  cbn [lines_of]. rewrite Hfile.
  destruct (slice_from_keeps_suffix (- Z.min 1000 100 * 2) file
              [Entry danmaku]) as [i ->]; [done|cbn; lia|].
  rewrite reverse_app. cbn [reverse rev_append app].
  cbn [collect strip json_loads platform_skips since_skips app length].
  change (Z.of_nat 1 >=? Z.min 1000 100) with false. cbv iota.
  assert (Hrest : Forall (λ line, line ≠ Garbage
                    ∧ ∀ other, line = Entry other → id other ≠ id danmaku)
                    (reverse (drop i file))).
  { by apply Forall_reverse, Forall_drop. }
  destruct (collect_runs (Z.min 1000 100) None None (reverse (drop i file))
              [danmaku]) as [result Hrun].
  { eapply Forall_impl; [exact Hrest|]. by intros line [? _]. }
  rewrite Hrun.
  apply collect_spec in Hrun as (added & -> & Hsub & _).
  rewrite reverse_app. cbn [reverse rev_append].
  rewrite first_with_id_app, first_with_id_None.
  - cbn. by rewrite String.eqb_refl.
  - intros other Hin. rewrite elem_of_reverse in Hin.
    assert (Hline : Entry other ∈ reverse (drop i file)).
    { apply (elem_of_sublist (Entry <$> added)); [|exact Hsub].
      by apply list_elem_of_fmap_2. }
    destruct (proj1 (Forall_forall _ _) Hrest _ Hline) as [_ Hid].
    by apply Hid.
Qed.

(** C6, as amended.  With the disk taking the writes, [add_raw_danmaku]
    followed by [add_audited_danmaku] leaves the pending entry as the last
    line of the raw log and the entry with the outcome as the last line of
    the audited log; the second call does not touch the raw log.
    [update_audit_result] does the same when the raw log has no line that
    is not JSON and no other record of that id; it adds nothing to
    the audited log when [get_danmaku_by_id] does not find the record. *)
Theorem raw_entry_survives_audit (self : DanmakuCacheManager)
    (danmaku : DanmakuMessage) (audit_result : gmap string pyval) :
  writable self = true →
  ∃ self1 self2,
    add_raw_danmaku danmaku self = Returns self1 (pending danmaku)
    ∧ add_audited_danmaku (pending danmaku) audit_result self1
      = Returns self2 (audited danmaku audit_result)
    ∧ raw_lines self2
      = Some (default [] (raw_lines self) ++ [Entry (pending danmaku)])
    ∧ audited_lines self2
      = Some (default [] (audited_lines self)
              ++ [Entry (audited danmaku audit_result)])
    ∧ (Forall (λ line, line ≠ Garbage
                       ∧ ∀ other, line = Entry other → id other ≠ id danmaku)
         (default [] (raw_lines self)) →
       update_audit_result (id danmaku) audit_result self1 = Returns self2 tt)
    ∧ (get_danmaku_by_id self1 (id danmaku) true = None →
       update_audit_result (id danmaku) audit_result self1 = Returns self1 tt).
Proof.
  intros Hw.
  set (self1 := with_lines raw_file
                  (default [] (raw_lines self) ++ [Entry (pending danmaku)])
                  self).
  assert (Hw1 : writable self1 = true) by exact Hw.
  assert (Haudit : ∀ found,
            audited found audit_result = audited danmaku audit_result →
            add_audited_danmaku found audit_result self1
            = Returns (with_lines audited_file
                         (default [] (audited_lines self)
                          ++ [Entry (audited danmaku audit_result)]) self1)
                (audited danmaku audit_result)).
  { intros found <-. exact (add_audited_danmaku_writable found _ self1 Hw1). }
  eexists self1, _.
  split; [by apply add_raw_danmaku_writable|].
  split; [by apply Haudit|].
  split; [done|]. split; [done|]. split.
  - intros Hlines. unfold update_audit_result, bind at 1, gets.
    erewrite (by_id_finds_last _ _ (pending danmaku)); [|done|exact Hlines].
    unfold bind. by rewrite Haudit.
  - intros Hmiss. unfold update_audit_result, bind, gets. by rewrite Hmiss.
Qed.

Lemma raw_entry_survives_audit_witness :
  ∃ self1 self2,
    add_raw_danmaku e1 (manager_with None) = Returns self1 (pending e1)
    ∧ add_audited_danmaku (pending e1) approve self1
      = Returns self2 (audited e1 approve)
    ∧ raw_lines self2 = Some [Entry (pending e1)]
    ∧ audited_lines self2 = Some [Entry (audited e1 approve)]
    ∧ audit_status (audited e1 approve) = "approved".
Proof.
  destruct (raw_entry_survives_audit (manager_with None) e1 approve eq_refl)
    as (self1 & self2 & Hraw & Haudited & Hrawlog & Hauditedlog & _).
  exists self1, self2. by repeat split.
Defined.

(** C6, as claimed, fails by way of [update_audit_result] when the raw log
    holds a line that is not JSON: the record is not found, and the audited
    log gets no entry. *)
Lemma audit_after_garbage_counterexample :
  Entry (pending e1) ∈ default [] (raw_lines audited_after_garbage)
  ∧ ¬ has_audited_entry e1 approve audited_after_garbage.
Proof.
  split; [vm_compute; right; left|].
  intros (file & Hfile & _). vm_compute in Hfile. discriminate.
Qed.

End DanmakuFacts.

(** ** Write failures in the two stores *)

Module StoreFacts.
Import Py.
Import ContextFacts DanmakuFacts DanmakuScenario.

Lemma append_message_unwritable now session_id message self :
  Context.cache_ok self → Context.writable self = false →
  ∃ self',
    Context.append_message now session_id message self = Raises self' OSError
    ∧ Context.sessions self' = Context.sessions self.
Proof.
  intros Hok Hw. unfold Context.append_message.
  destruct (load_context_spec now session_id self Hok)
    as (self1 & messages & Hload & _ & (_ & _ & _ & Hw1) & Hfiles).
  unfold bind at 1. rewrite Hload. unfold bind at 1, gets at 1.
  cbv beta iota zeta.
  rewrite save_context_unwritable by congruence. eauto.
Qed.

(** C3, as amended.  On a disk that refuses the write, [save_context]
    raises, and so does [append_message], which saves through it: the
    failure reaches the caller.  [add_raw_danmaku] and
    [add_audited_danmaku] catch the exception and return as after a good
    write, with both logs as they were: the caller cannot tell that the
    line is lost. *)
Theorem write_failure_outcomes :
  (∀ now session_id messages metadata mono (self : Context.ContextManager),
     Context.writable self = false →
     Context.save_context now session_id messages metadata mono self
     = Raises self OSError)
  ∧ (∀ now session_id message (self : Context.ContextManager),
       Context.cache_ok self → Context.writable self = false →
       ∃ self',
         Context.append_message now session_id message self
         = Raises self' OSError
         ∧ Context.sessions self' = Context.sessions self)
  ∧ (∀ danmaku (self : Danmaku.DanmakuCacheManager),
       Danmaku.writable self = false →
       Danmaku.add_raw_danmaku danmaku self = Returns self (pending danmaku))
  ∧ (∀ danmaku audit_result (self : Danmaku.DanmakuCacheManager),
       Danmaku.writable self = false →
       Danmaku.add_audited_danmaku danmaku audit_result self
       = Returns self (audited danmaku audit_result)).
Proof.
  split; [intros; by apply save_context_unwritable|].
  split; [intros; by apply append_message_unwritable|].
  split.
  - intros danmaku self Hw.
    unfold Danmaku.add_raw_danmaku, bind, try_except, Danmaku.append_line.
    by rewrite Hw.
  - intros danmaku audit_result self Hw.
    unfold Danmaku.add_audited_danmaku, bind, try_except, Danmaku.append_line.
    by rewrite Hw.
Qed.

Lemma write_failure_outcomes_witness :
  Context.save_context 0 "s1" [] None None ContextScenario.read_only_context
  = Raises ContextScenario.read_only_context OSError
  ∧ Danmaku.add_raw_danmaku e1 read_only_manager
    = Returns read_only_manager (pending e1).
Proof.
  split.
  - exact (proj1 write_failure_outcomes 0 "s1" [] None None
             ContextScenario.read_only_context eq_refl).
  - exact (proj1 (proj2 (proj2 write_failure_outcomes)) e1 read_only_manager
             eq_refl).
Defined.

(** C3, as claimed, fails for [add_raw_danmaku]: on a disk that refuses the
    write the call does not raise. *)
Lemma swallowed_write_counterexample :
  Danmaku.writable read_only_manager = false
  ∧ ¬ reports_failure e1 read_only_manager.
Proof.
  split; [done|]. intros (self' & e & Hraise). vm_compute in Hraise.
  discriminate.
Qed.

End StoreFacts.

(** ** Further properties of the session context store *)

Module ContextExtra.
Import Py Context ContextScenario ContextFacts ExtraScenario.
#[local] Open Scope py_scope.
#[local] Set Warnings "-clear-no-such-hyp".

(** *** The memory cache *)

Lemma kept_order_length session_id self :
  0 ≤ max_cache_size self →
  Z.of_nat (length (kept_order session_id self)) ≤ max_cache_size self.
Proof. intros Hcap. unfold kept_order. rewrite length_drop. lia. Qed.

(** The entry of a session after [_update_cache], if it has one, is the new
    one. *)
Lemma updated_entry now session_id document self entry :
  filter (λ kv, kv.1 ∈ kept_order session_id self)
         (<[session_id := new_entry document now]> (_memory_cache self))
    !! session_id = Some entry →
  entry = new_entry document now.
Proof.
  intros [Hin _]%map_lookup_filter_Some.
  rewrite lookup_insert_eq in Hin. congruence.
Qed.

(** X1. [_update_cache] keeps the cache in step and within its capacity:
    when the order list names the cached sessions, each once, and the
    capacity is not negative, the call returns, the same holds afterwards,
    the cache has at most [max_cache_size] entries and no session file is
    touched.  With room for one session at least, the session just put is
    cached with its new entry and is the last of the order list. *)
Theorem update_cache_keeps_cache_in_step (now : Z) (session_id : string)
    (document : context) (self : ContextManager) :
  cache_ok self →
  ∃ self',
    _update_cache now session_id document self = Returns self' tt
    ∧ cache_ok self'
    ∧ Z.of_nat (size (_memory_cache self')) ≤ max_cache_size self
    ∧ sessions self' = sessions self
    ∧ (1 ≤ max_cache_size self →
       _memory_cache self' !! session_id = Some (new_entry document now)
       ∧ last (_cache_order self') = Some session_id).
Proof.
  intros Hok. rewrite _update_cache_spec by done.
  pose proof (_update_cache_ok now session_id document self Hok) as Hok'.
  eexists. split; [done|]. split; [exact Hok'|].
  destruct Hok' as (_ & Hnd & Hdom). destruct Hok as (Hcap & _).
  split; [|split; [done|]].
  - rewrite (size_cache_order _ _ Hnd Hdom). cbn.
    by apply kept_order_length.
  - intros Hroom. cbn. split; [by apply _update_cache_lookup|].
    destruct (kept_order_last session_id self Hroom) as [older ->].
    apply last_snoc.
Qed.

Lemma update_cache_keeps_cache_in_step_witness :
  ∃ self',
    _update_cache 0 "s1" chat small_cache = Returns self' tt
    ∧ cache_ok self'
    ∧ Z.of_nat (size (_memory_cache self')) ≤ 2
    ∧ sessions self' = sessions small_cache
    ∧ (1 ≤ max_cache_size small_cache →
       _memory_cache self' !! "s1" = Some (new_entry chat 0)
       ∧ last (_cache_order self') = Some "s1").
Proof.
  exact (update_cache_keeps_cache_in_step 0 "s1" chat small_cache
           (new_manager_cache_ok 40 3600 2 ltac:(done))).
Defined.

Lemma evict_negative capacity order :
  ∀ cache, capacity < 0 → evict capacity cache order = None.
Proof.
  induction order as [|oldest_key order IH]; intros cache Hneg.
  - rewrite evict_nil. destruct (Z.gtb_spec (Z.of_nat (size cache)) capacity);
      [done|lia].
  - rewrite evict_cons.
    destruct (Z.gtb_spec (Z.of_nat (size cache)) capacity); [by apply IH|lia].
Qed.

(** X2. A negative [max_cache_size] makes the eviction loop run for ever:
    the cache is always larger than the capacity, and once the order list
    is empty the loop has nothing left to remove.  So [_update_cache] never
    returns, and neither does [save_context] once it has written the file,
    nor a [load_context] that reads a file. *)
Theorem negative_capacity_never_returns (now : Z) (session_id : string)
    (document : context) (messages : list Message.t)
    (metadata : option (gmap string pyval))
    (mono : option (list MonoContextItem.t)) (self : ContextManager) :
  max_cache_size self < 0 →
  _update_cache now session_id document self = Hangs
  ∧ (writable self = true →
     save_context now session_id messages metadata mono self = Hangs)
  ∧ (_memory_cache self !! session_id = None →
     sessions self !! session_id = Some (Json document) →
     load_context now session_id self = Hangs).
Proof.
  intros Hneg.
  assert (Hput : ∀ now session_id document self,
            max_cache_size self < 0 →
            _update_cache now session_id document self = Hangs).
  { intros ? ? ? self0 Hneg0. unfold _update_cache.
    by rewrite evict_negative. }
  split; [by apply Hput|]. split.
  - intros Hw. unfold save_context, bind, gets, try_except, write_session.
    cbv beta iota. rewrite Hw. cbv beta iota. by rewrite Hput.
  - intros Hcache Hfile. unfold load_context, bind, gets. cbv beta iota.
    rewrite Hcache. unfold load_from_file, bind, gets. cbv beta iota.
    rewrite Hfile. by rewrite Hput.
Qed.

Lemma negative_capacity_never_returns_witness :
  max_cache_size negative_cache < 0
  ∧ save_context 0 "s1" [] None None negative_cache = Hangs
  ∧ load_context 0 "s1" negative_cache = Hangs.
Proof.
  assert (Hneg : max_cache_size negative_cache < 0) by done.
  destruct (negative_capacity_never_returns 0 "s1" chat [] None None
              negative_cache Hneg) as (_ & Hsave & Hload).
  split; [exact Hneg|]. split; [exact (Hsave eq_refl)|].
  exact (Hload eq_refl eq_refl).
Defined.

(** X3. Puts of distinct keys into an empty cache leave the last
    [max_cache_size] of them, in the order of the puts: these keys, and no
    others, are cached.  The eviction takes the keys in the order in which
    they were put. *)
Theorem distinct_puts_keep_the_last (now : Z) (document : context)
    (keys : list string) (self : ContextManager) :
  cache_ok self → _cache_order self = [] → NoDup keys →
  ∃ self',
    put_all now document keys self = Returns self' tt
    ∧ _cache_order self'
      = drop (length keys - Z.to_nat (max_cache_size self)) keys
    ∧ ∀ key, is_Some (_memory_cache self' !! key)
             ↔ key ∈ drop (length keys - Z.to_nat (max_cache_size self)) keys.
Proof.
  intros Hok Hempty Hnd.
  destruct (put_all_order now document keys self)
    as (self' & Hrun & (_ & _ & Hdom) & Horder); [done|..].
  - rewrite Hempty. cbn. destruct Hok as [? _]. lia.
  - by rewrite Hempty.
  - rewrite Hempty in Horder. cbn [app] in Horder.
    exists self'. split; [done|]. split; [done|].
    intros key. rewrite <- elem_of_dom, Hdom, Horder.
    apply elem_of_list_to_set.
Qed.

Lemma distinct_puts_keep_the_last_witness :
  ∃ self',
    put_all 0 chat ["a"; "b"; "c"] small_cache = Returns self' tt
    ∧ _cache_order self' = ["b"; "c"]
    ∧ ∀ key, is_Some (_memory_cache self' !! key) ↔ key ∈ ["b"; "c"].
Proof.
  assert (Hnd : NoDup ["a"; "b"; "c"]) by (by apply NoDup_ListNoDup; repeat constructor; cbn; intuition discriminate).
  exact (distinct_puts_keep_the_last 0 chat ["a"; "b"; "c"] small_cache
           (new_manager_cache_ok 40 3600 2 ltac:(done)) eq_refl Hnd).
Defined.

(** *** Saving and loading *)

(** X4. What [save_context] writes is what a later [load_context] reads
    from the file: on a disk that takes the write, a load at least
    [cache_ttl] seconds after the save returns the messages saved, in their
    order.  The entry is fresh for less than [cache_ttl] seconds only: at
    [cache_ttl] seconds exactly the file is read. *)
Theorem save_then_load_reads_file (now now' : Z) (session_id : string)
    (messages : list Message.t) (metadata : option (gmap string pyval))
    (mono : option (list MonoContextItem.t)) (self : ContextManager) :
  cache_ok self → writable self = true →
  cache_ttl self * 1000000 ≤ now' - now →
  ∃ self1 self2,
    save_context now session_id messages metadata mono self
    = Returns self1 tt
    ∧ load_context now' session_id self1 = Returns self2 messages
    ∧ sessions self2 = sessions self1.
Proof.
  intros Hok Hw Hstale.
  unfold save_context, bind, gets, try_except, write_session.
  cbv beta iota. rewrite Hw. cbv beta iota.
  set (document := {| session_id := session_id |}).
  set (written := with_sessions _ self).
  assert (Hok1 : cache_ok written) by exact Hok.
  rewrite _update_cache_spec by done.
  set (self1 := with_cache _ _ written).
  assert (Hok2 : cache_ok self1) by (by apply _update_cache_ok).
  assert (Hfile : sessions self1 !! session_id = Some (Json document))
    by apply lookup_insert_eq.
  assert (Hread : load_from_file now' session_id self1
                  = Returns (with_cache
                               (filter (λ kv, kv.1 ∈ kept_order session_id self1)
                                  (<[session_id := new_entry document now']>
                                     (_memory_cache self1)))
                               (kept_order session_id self1) self1)
                      messages).
  { unfold load_from_file, bind, gets. cbv beta iota. rewrite Hfile.
    by rewrite _update_cache_spec. }
  assert (Hload : load_context now' session_id self1
                  = load_from_file now' session_id self1).
  { unfold load_context, bind, gets. cbv beta iota.
    destruct (_memory_cache self1 !! session_id) as [cached|] eqn:Hcached;
      [|done].
    apply updated_entry in Hcached as ->.
    rewrite new_entry_valid, bool_decide_eq_false_2; [done|]. cbn. lia. }
  eexists self1, _. split; [done|]. rewrite Hload, Hread. by split.
Qed.

Lemma save_then_load_reads_file_witness :
  ∃ self1 self2,
    save_context 0 "s1" [message "user" "hi"] None None small_cache
    = Returns self1 tt
    ∧ load_context (3600 * second) "s1" self1
      = Returns self2 [message "user" "hi"]
    ∧ sessions self2 = sessions self1.
Proof.
  exact (save_then_load_reads_file 0 (3600 * second) "s1"
           [message "user" "hi"] None None small_cache
           (new_manager_cache_ok 40 3600 2 ltac:(done)) eq_refl
           ltac:(vm_compute; discriminate)).
Defined.

(** X5. [append_message] saves the messages alone: whatever the document
    of the session held, the document it leaves has no mono context and no
    metadata.  It keeps the [created_at] of a document it could read, and
    stamps [last_active] with the time of the call. *)
Theorem append_message_drops_mono_and_metadata (now : Z)
    (session_id : string) (message : Message.t) (self : ContextManager) :
  cache_ok self → writable self = true →
  ∃ self' document,
    append_message now session_id message self = Returns self' tt
    ∧ sessions self' !! session_id = Some (Json document)
    ∧ mono_context document = []
    ∧ metadata document = ∅
    ∧ created_at document = _get_or_create_created_at now session_id self
    ∧ last_active document = isoformat (Naive now)
    ∧ ∀ now', get_mono_context now' session_id self' = [].
Proof.
  intros Hok Hw. unfold append_message.
  destruct (load_context_spec now session_id self Hok)
    as (self1 & loaded & Hload & Hok1 & (_ & _ & _ & Hw1) & Hfiles).
  unfold bind at 1. rewrite Hload. unfold bind at 1, gets at 1.
  cbv beta iota zeta.
  match goal with
  | |- context [save_context now session_id ?l None None self1] =>
      destruct (save_context_spec now session_id l None None self1)
        as (self2 & -> & _ & _ & Hsaved & _); [done|congruence|];
        set (kept := l) in *
  end.
  exists self2, (saved_document now session_id kept None None self1).
  assert (Hfile : sessions self2 !! session_id
                  = Some (Json (saved_document now session_id kept None None
                                  self1)))
    by (rewrite Hsaved; apply lookup_insert_eq).
  split; [done|]. split; [done|]. split; [done|]. split; [done|].
  split; [cbn; unfold _get_or_create_created_at; by rewrite Hfiles|].
  split; [done|].
  intros now'. unfold get_mono_context, _load_mono_context. by rewrite Hfile.
Qed.

Lemma append_message_drops_mono_and_metadata_witness :
  _load_mono_context "s1" (with_file (Json chat)) = [rain; tea]
  ∧ ∃ self' document,
      append_message 9 "s1" (message "user" "bye") (with_file (Json chat))
      = Returns self' tt
      ∧ sessions self' !! "s1" = Some (Json document)
      ∧ mono_context document = []
      ∧ metadata document = ∅
      ∧ created_at document = IsoNaive 1
      ∧ last_active document = IsoNaive 9
      ∧ ∀ now', get_mono_context now' "s1" self' = [].
Proof.
  split; [reflexivity|].
  assert (Hok : cache_ok (with_file (Json chat))).
  { split; [done|]. split; [apply NoDup_nil_2|]. cbn. by rewrite dom_empty_L. }
  exact (append_message_drops_mono_and_metadata 9 "s1" (message "user" "bye")
           (with_file (Json chat)) Hok eq_refl).
Defined.

(** *** Clearing a session *)

(** X6. [clear_context] on a session that has a file, on a disk that
    takes the removal: the file, the cache entry and the key in the order
    list are removed, and the cache stays in step; the files and the cache
    entries of other sessions stay.  After it the session reads as empty,
    no mono context is left, and a second [clear_context] changes
    nothing.  On a disk that refuses writes [unlink] raises, there is no
    [try] around it, and the file, the cache entry and the order list are
    left as they were. *)
Theorem clear_context_forgets_session (now : Z) (session_id : string)
    (self : ContextManager) :
  cache_ok self → is_Some (sessions self !! session_id) →
  (writable self = true →
   ∃ self',
     clear_context session_id self = Returns self' tt
     ∧ cache_ok self'
     ∧ sessions self' !! session_id = None
     ∧ _memory_cache self' !! session_id = None
     ∧ (session_id ∉ _cache_order self')
     ∧ (∀ other, other ≠ session_id →
          sessions self' !! other = sessions self !! other
          ∧ _memory_cache self' !! other = _memory_cache self !! other)
     ∧ load_context now session_id self' = Returns self' []
     ∧ get_mono_context now session_id self' = []
     ∧ clear_context session_id self' = Returns self' tt)
  ∧ (writable self = false →
     clear_context session_id self = Raises self OSError).
Proof.
  intros Hok [file Hfile]. split; intros Hw.
  - destruct (clear_context_cache_ok session_id self Hok Hw)
      as (self' & Hrun & Hok').
    pose proof Hrun as Hstate.
    unfold clear_context, bind, gets, modify, unlink_session in Hstate.
    cbv beta iota in Hstate. rewrite Hfile, Hw in Hstate.
    injection Hstate as <-.
    destruct Hok as (_ & Hnd & _).
    assert (Hgone : (sessions
                       (with_cache (delete session_id (_memory_cache self))
                          (remove_first session_id (_cache_order self))
                          (with_sessions (delete session_id (sessions self))
                             self)))
                    !! session_id = None) by apply lookup_delete_eq.
    eexists. split; [exact Hrun|]. split; [exact Hok'|].
    split; [exact Hgone|].
    split; [apply lookup_delete_eq|]. split.
    { cbn. rewrite remove_first_elem_of by done. tauto. }
    split.
    { intros other Hother. cbn. by rewrite !lookup_delete_ne. }
    split.
    { unfold load_context, bind, gets. cbv beta iota.
      cbn [_memory_cache with_cache]. rewrite lookup_delete_eq.
      unfold load_from_file, bind, gets. cbv beta iota. by rewrite Hgone. }
    split.
    { unfold get_mono_context, _load_mono_context. by rewrite Hgone. }
    unfold clear_context, bind, gets. cbv beta iota. by rewrite Hgone.
  - unfold clear_context, bind, gets, unlink_session. cbv beta iota.
    by rewrite Hfile, Hw.
Qed.

Lemma clear_context_forgets_session_witness :
  (∃ self',
     clear_context "s1" (with_file (Json chat)) = Returns self' tt
     ∧ sessions self' !! "s1" = None
     ∧ load_context 0 "s1" self' = Returns self' []
     ∧ clear_context "s1" self' = Returns self' tt)
  ∧ clear_context "s1" locked_file = Raises locked_file OSError.
Proof.
  assert (Hok : cache_ok (with_file (Json chat))).
  { split; [done|]. split; [apply NoDup_nil_2|]. cbn. by rewrite dom_empty_L. }
  assert (Hlocked : cache_ok locked_file).
  { split; [done|]. split; [apply NoDup_nil_2|]. cbn. by rewrite dom_empty_L. }
  split.
  - destruct (proj1 (clear_context_forgets_session 0 "s1"
                       (with_file (Json chat)) Hok ltac:(by eexists)) eq_refl)
      as (self' & Hrun & _ & Hgone & _ & _ & _ & Hload & _ & Hagain).
    by exists self'.
  - exact (proj2 (clear_context_forgets_session 0 "s1" locked_file Hlocked
                    ltac:(by eexists)) eq_refl).
Defined.

(** *** The last messages *)

(** X7. [get_recent_messages] on a session whose file is read returns
    [messages[-count:]]: the last [count] messages for a positive [count],
    and every message when [count] is [0], since [messages[-0:]] is the
    whole list; a negative [count] leaves out that many of the oldest. *)
Theorem get_recent_messages_slices (now : Z) (session_id : string)
    (count : Z) (document : context) (self : ContextManager) :
  cache_ok self →
  _memory_cache self !! session_id = None →
  sessions self !! session_id = Some (Json document) →
  ∃ recent,
    value_of (get_recent_messages now session_id count) self = Some recent
    ∧ recent `suffix_of` messages document
    ∧ (0 < count →
       Z.of_nat (length recent)
       = Z.min count (Z.of_nat (length (messages document))))
    ∧ (count = 0 → recent = messages document)
    ∧ (count < 0 → recent = drop (Z.to_nat (- count)) (messages document)).
Proof.
  intros Hok Hcache Hfile.
  unfold value_of, get_recent_messages, bind at 1.
  unfold load_context, bind, gets. cbv beta iota. rewrite Hcache.
  unfold load_from_file, bind, gets. cbv beta iota. rewrite Hfile.
  rewrite _update_cache_spec by done. cbn [ret].
  eexists. split; [done|]. unfold slice_from. split; [apply suffix_drop|].
  split; [|split].
  - intros Hpos. destruct (Z.ltb_spec (- count) 0); [|lia].
    rewrite length_drop. lia.
  - intros ->. rewrite Z.opp_0. cbn [Z.ltb Z.compare].
    rewrite Z.min_l by lia. done.
  - intros Hneg. destruct (Z.ltb_spec (- count) 0); [lia|].
    destruct (decide (- count ≤ Z.of_nat (length (messages document)))).
    + by rewrite Z.min_l by lia.
    + rewrite !drop_ge; [done|lia..].
Qed.

Lemma get_recent_messages_slices_witness :
  value_of (get_recent_messages 0 "s1" 1) (with_file (Json chat))
  = Some [message "assistant" "hello"]
  ∧ value_of (get_recent_messages 0 "s1" 0) (with_file (Json chat))
    = Some [message "user" "hi"; message "assistant" "hello"].
Proof.
  assert (Hok : cache_ok (with_file (Json chat))).
  { split; [done|]. split; [apply NoDup_nil_2|]. cbn. by rewrite dom_empty_L. }
  split.
  - destruct (get_recent_messages_slices 0 "s1" 1 chat (with_file (Json chat))
                Hok eq_refl eq_refl) as (recent & Hrun & _).
    vm_compute in Hrun. vm_compute. exact eq_refl.
  - destruct (get_recent_messages_slices 0 "s1" 0 chat (with_file (Json chat))
                Hok eq_refl eq_refl) as (recent & Hrun & _ & _ & Hall & _).
    rewrite Hrun, (Hall eq_refl). reflexivity.
Defined.

(** *** The window of [append_message], where every load reads the file *)

(** X8. On a manager whose cache has no room, so that every load reads the
    file, a session whose file holds the last [max_messages] of some
    earlier messages holds, after any sequence of [append_message] calls,
    the last [max_messages] of the earlier messages followed by the
    appended ones, and [load_context] returns them in that order. *)
Theorem window_slides_over_stored_messages (session_id : string)
    (calls : list (Z * Message.t)) (earlier : list Message.t) (now : Z)
    (self : ContextManager) :
  uncached self → writable self = true → 0 ≤ max_messages self →
  stored_messages session_id self
  = slice_from (- max_messages self) earlier →
  ∃ self',
    append_all session_id calls self = Returns self' tt
    ∧ value_of (load_context now session_id) self'
      = Some (slice_from (- max_messages self) (earlier ++ calls.*2)).
Proof.
  intros Hun Hw Hlimit Hstored.
  destruct (append_all_uncached session_id calls self earlier)
    as (self' & Hrun & Hun' & Hstored'); [done..|].
  exists self'. split; [done|].
  unfold value_of. rewrite load_context_uncached by done.
  rewrite <- Hstored'. unfold stored_messages.
  by destruct (sessions self' !! session_id) as [[|document]|].
Qed.

Lemma window_slides_over_stored_messages_witness :
  ∃ self',
    append_all "s1" [(5, message "user" "c"); (6, message "assistant" "d")]
      (state_after (append_all "s1" [(1, message "user" "a");
                                     (2, message "assistant" "b")])
         (no_cache 2))
    = Returns self' tt
    ∧ value_of (load_context 7 "s1") self'
      = Some [message "user" "c"; message "assistant" "d"].
Proof.
  exact (window_slides_over_stored_messages "s1"
           [(5, message "user" "c"); (6, message "assistant" "d")]
           [message "user" "a"; message "assistant" "b"] 7
           (state_after (append_all "s1" [(1, message "user" "a");
                                          (2, message "assistant" "b")])
              (no_cache 2))
           ltac:(by vm_compute) eq_refl ltac:(by vm_compute) eq_refl).
Defined.

Lemma append_message_negative_limit now session_id message self :
  uncached self → writable self = true → max_messages self < 0 →
  stored_messages session_id self = [] →
  ∃ self',
    append_message now session_id message self = Returns self' tt
    ∧ uncached self' ∧ writable self' = true
    ∧ max_messages self' = max_messages self
    ∧ stored_messages session_id self' = [].
Proof.
  intros Hun Hw Hneg Hstored.
  destruct (append_message_uncached now session_id message self)
    as (self' & Hrun & Hun' & Hw' & Hmax & Hstored'); [done..|].
  exists self'. split; [done|]. split; [done|]. split; [done|].
  split; [done|].
  rewrite Hstored', Hstored. cbn [app length].
  destruct (Z.gtb_spec (Z.of_nat 1) (max_messages self)); [|lia].
  unfold slice_from. cbn [length].
  destruct (Z.ltb_spec (- max_messages self) 0); [lia|].
  apply drop_ge. cbn. lia.
Qed.

(** X9. The limit [max_messages] at its edges, on a manager whose cache
    has no room and for a session without a file.  With [max_messages = 0]
    nothing is ever cut, since [messages[-0:]] is the whole list:
    [load_context] returns every message appended.  With a negative
    [max_messages] every append stores an empty list: [load_context]
    returns no message. *)
Theorem max_messages_edges (session_id : string)
    (calls : list (Z * Message.t)) (now : Z) (self : ContextManager) :
  uncached self → writable self = true →
  sessions self !! session_id = None →
  ∃ self',
    append_all session_id calls self = Returns self' tt
    ∧ (max_messages self = 0 →
       value_of (load_context now session_id) self' = Some (calls.*2))
    ∧ (max_messages self < 0 →
       value_of (load_context now session_id) self' = Some []).
Proof.
  intros Hun Hw Hfile.
  assert (Hempty : stored_messages session_id self = []).
  { unfold stored_messages. by rewrite Hfile. }
  assert (Hload : ∀ self', uncached self' →
            value_of (load_context now session_id) self'
            = Some (stored_messages session_id self')).
  { intros self' Hun'. unfold value_of.
    rewrite load_context_uncached by done. unfold stored_messages.
    by destruct (sessions self' !! session_id) as [[|document]|]. }
  destruct (decide (0 ≤ max_messages self)) as [Hlimit|Hneg].
  - destruct (append_all_uncached session_id calls self [])
      as (self' & Hrun & Hun' & Hstored); [done..| |].
    { rewrite Hempty. unfold slice_from. by rewrite drop_nil. }
    exists self'. split; [done|]. split; [|lia].
    intros Hzero. rewrite Hload, Hstored, Hzero by done.
    cbn [app]. unfold slice_from. rewrite Z.opp_0. cbn [Z.ltb Z.compare].
    by rewrite Z.min_l by lia.
  - assert (Hall : ∀ calls self,
              uncached self → writable self = true → max_messages self < 0 →
              stored_messages session_id self = [] →
              ∃ self', append_all session_id calls self = Returns self' tt
                       ∧ uncached self'
                       ∧ stored_messages session_id self' = []).
    { clear. induction calls as [|[now message] calls IH];
        intros self Hun Hw Hneg Hstored.
      - exists self. split; [done|]. by split.
      - cbn [append_all]. unfold bind.
        destruct (append_message_negative_limit now session_id message self)
          as (self1 & -> & Hun1 & Hw1 & Hmax1 & Hstored1); [done..|].
        apply IH; [done|done|lia|done]. }
    destruct (Hall calls self) as (self' & Hrun & Hun' & Hstored); [done|done|lia|done|].
    exists self'. split; [done|]. split; [lia|].
    intros _. by rewrite Hload, Hstored.
Qed.

Lemma max_messages_edges_witness :
  (∃ self',
     append_all "s1" [(1, message "user" "a"); (2, message "assistant" "b");
                      (3, message "user" "c")] (no_cache 0)
     = Returns self' tt
     ∧ value_of (load_context 4 "s1") self'
       = Some [message "user" "a"; message "assistant" "b";
               message "user" "c"])
  ∧ (∃ self',
       append_all "s1" [(1, message "user" "a")] (no_cache (- 3))
       = Returns self' tt
       ∧ value_of (load_context 4 "s1") self' = Some []).
Proof.
  split.
  - destruct (max_messages_edges "s1"
                [(1, message "user" "a"); (2, message "assistant" "b");
                 (3, message "user" "c")] 4 (no_cache 0)
                ltac:(by vm_compute) eq_refl eq_refl)
      as (self' & Hrun & Hzero & _).
    exists self'. split; [exact Hrun|exact (Hzero eq_refl)].
  - destruct (max_messages_edges "s1" [(1, message "user" "a")] 4
                (no_cache (- 3)) ltac:(by vm_compute) eq_refl eq_refl)
      as (self' & Hrun & _ & Hneg).
    exists self'. split; [exact Hrun|exact (Hneg ltac:(done))].
Defined.

(** *** Expired mono items *)

Lemma valid_items_filter now mono :
  ∀ valid_context,
    valid_items now mono valid_context
    = valid_context ++ filter (λ item, unexpired now item) mono.
Proof.
  induction mono as [|item mono IH]; intros acc; cbn [valid_items].
  - by rewrite app_nil_r.
  - rewrite filter_cons. destruct (unexpired now item) eqn:Hitem.
    + rewrite decide_True by done. by rewrite IH, <- app_assoc.
    + rewrite decide_False by (by intros ?). apply IH.
Qed.

Lemma filter_same_length {A} (P : A → Prop) `{!∀ x, Decision (P x)}
    (l : list A) :
  length (filter P l) = length l → filter P l = l.
Proof.
  induction l as [|x l IH]; [done|]. rewrite filter_cons.
  pose proof (length_filter P l) as Hle.
  case_decide; cbn [length]; intros Hlen; [|lia].
  f_equal. apply IH. lia.
Qed.

Lemma filter_again {A} (P : A → Prop) `{!∀ x, Decision (P x)} (l : list A) :
  filter P (filter P l) = filter P l.
Proof.
  induction l as [|x l IH]; [done|]. rewrite filter_cons.
  case_decide; [|done]. rewrite filter_cons, decide_True by done.
  by rewrite IH.
Qed.

(** X10. [clear_expired_mono] on a disk that takes the write leaves in the
    file the items that have not expired, in their order, and changes
    nothing in what [get_mono_context] returns at that time.  When no item
    has expired it writes no file at all. *)
Theorem clear_expired_mono_keeps_the_valid (now : Z) (session_id : string)
    (self : ContextManager) :
  cache_ok self → writable self = true →
  ∃ self',
    clear_expired_mono now session_id self = Returns self' tt
    ∧ _load_mono_context session_id self'
      = filter (λ item, unexpired now item)
          (_load_mono_context session_id self)
    ∧ get_mono_context now session_id self'
      = get_mono_context now session_id self
    ∧ (Forall (λ item, unexpired now item)
         (_load_mono_context session_id self) →
       sessions self' = sessions self).
Proof.
  intros Hok Hw. unfold clear_expired_mono.
  destruct (load_context_spec now session_id self Hok)
    as (self1 & loaded & Hload & Hok1 & (_ & _ & _ & Hw1) & Hfiles).
  unfold bind at 1. rewrite Hload. unfold bind at 1, gets at 1.
  cbv beta iota zeta.
  assert (Hmono : _load_mono_context session_id self1
                  = _load_mono_context session_id self)
    by (unfold _load_mono_context; by rewrite Hfiles).
  rewrite Hmono, valid_items_filter. cbn [app].
  set (mono := _load_mono_context session_id self) in *.
  assert (Hread : ∀ l, valid_contents now (filter (λ item, unexpired now item) l) []
                       = valid_contents now l []).
  { intros l. by rewrite !valid_contents_filter, filter_again. }
  case_bool_decide as Hlen.
  - destruct (save_context_spec now session_id loaded None
                (Some (filter (λ item, unexpired now item) mono)) self1)
      as (self2 & -> & _ & _ & Hsaved & _); [done|congruence|].
    assert (Hfile : _load_mono_context session_id self2
                    = filter (λ item, unexpired now item) mono).
    { unfold _load_mono_context. rewrite Hsaved, lookup_insert_eq. done. }
    exists self2. split; [done|]. split; [done|]. split.
    + unfold get_mono_context. fold mono. by rewrite Hfile, Hread.
    + intros Hall. destruct Hlen. f_equal.
      clear -Hall. induction Hall as [|item l Hitem _ IH]; [done|].
      by rewrite filter_cons, decide_True, IH.
  - exists self1.
    assert (Hsame : filter (λ item, unexpired now item) mono = mono).
    { apply filter_same_length. by destruct (decide (length (filter (λ item, unexpired now item) mono) = length mono)). }
    split; [done|]. split; [by rewrite Hmono, Hsame|]. split; [|done].
    unfold get_mono_context. by rewrite Hmono.
Qed.

Lemma clear_expired_mono_keeps_the_valid_witness :
  _load_mono_context "s1" (with_file (Json chat)) = [rain; tea]
  ∧ ∃ self',
      clear_expired_mono 10 "s1" (with_file (Json chat)) = Returns self' tt
      ∧ _load_mono_context "s1" self' = [tea]
      ∧ get_mono_context 10 "s1" self' = ["the user likes tea"].
Proof.
  split; [reflexivity|].
  assert (Hok : cache_ok (with_file (Json chat))).
  { split; [done|]. split; [apply NoDup_nil_2|]. cbn. by rewrite dom_empty_L. }
  destruct (clear_expired_mono_keeps_the_valid 10 "s1" (with_file (Json chat))
              Hok eq_refl) as (self' & Hrun & Hfile & Hread & _).
  exists self'. split; [exact Hrun|]. split; [exact Hfile|exact Hread].
Defined.

(** *** A file that cannot be decoded *)

(** X11. A session file that [json.load] cannot decode reads as an empty
    session: [load_context] returns no message and changes nothing, and
    [get_mono_context] returns no content.  The next [append_message], on
    a disk that takes the write and with [max_messages] positive, replaces
    the file by a new document that holds that message alone and whose
    [created_at] is the time of the call. *)
Theorem unreadable_file_reads_as_empty (now : Z) (session_id : string)
    (message : Message.t) (self : ContextManager) :
  cache_ok self →
  _memory_cache self !! session_id = None →
  sessions self !! session_id = Some Unreadable →
  load_context now session_id self = Returns self []
  ∧ get_mono_context now session_id self = []
  ∧ (writable self = true → 1 ≤ max_messages self →
     ∃ self' document,
       append_message now session_id message self = Returns self' tt
       ∧ sessions self' !! session_id = Some (Json document)
       ∧ messages document = [message]
       ∧ created_at document = isoformat (Naive now)).
Proof.
  intros Hok Hcache Hfile.
  assert (Hload : load_context now session_id self = Returns self []).
  { unfold load_context, bind, gets. cbv beta iota. rewrite Hcache.
    unfold load_from_file, bind, gets. cbv beta iota. by rewrite Hfile. }
  split; [exact Hload|]. split.
  { unfold get_mono_context, _load_mono_context. by rewrite Hfile. }
  intros Hw Hlimit. unfold append_message, bind at 1. rewrite Hload.
  unfold bind at 1, gets at 1. cbv beta iota zeta. cbn [app length].
  destruct (Z.gtb_spec (Z.of_nat 1) (max_messages self)); [lia|].
  destruct (save_context_spec now session_id [message] None None self)
    as (self' & -> & _ & _ & Hsaved & _); [done..|].
  eexists self', _. split; [done|].
  split; [rewrite Hsaved; apply lookup_insert_eq|]. split; [done|].
  cbn. unfold _get_or_create_created_at. by rewrite Hfile.
Qed.

Lemma unreadable_file_reads_as_empty_witness :
  load_context 3 "s1" (with_file Unreadable)
  = Returns (with_file Unreadable) []
  ∧ get_mono_context 3 "s1" (with_file Unreadable) = []
  ∧ ∃ self' document,
      append_message 3 "s1" (message "user" "hi") (with_file Unreadable)
      = Returns self' tt
      ∧ sessions self' !! "s1" = Some (Json document)
      ∧ messages document = [message "user" "hi"]
      ∧ created_at document = IsoNaive 3.
Proof.
  assert (Hok : cache_ok (with_file Unreadable)).
  { split; [done|]. split; [apply NoDup_nil_2|]. cbn. by rewrite dom_empty_L. }
  destruct (unreadable_file_reads_as_empty 3 "s1" (message "user" "hi")
              (with_file Unreadable) Hok eq_refl eq_refl)
    as (Hload & Hmono & Happend).
  split; [exact Hload|]. split; [exact Hmono|].
  exact (Happend eq_refl ltac:(done)).
Defined.

End ContextExtra.

(** ** Further properties of the event log store *)

Module DanmakuExtra.
Import Py Danmaku DanmakuScenario DanmakuFacts ExtraScenario.

(** *** What [get_recent_danmaku] returns *)

Lemma slice_from_tail {A} (count : Z) (l : list A) :
  0 < count →
  reverse (take (Z.to_nat count) (reverse l)) = slice_from (- count) l.
Proof.
  intros Hcount. unfold slice_from.
  destruct (Z.ltb_spec (- count) 0); [|lia].
  rewrite reverse_take, reverse_involutive, length_reverse. f_equal. lia.
Qed.

Lemma slice_from_snoc {A} (count : Z) (l : list A) (x : A) :
  0 < count → last (slice_from (- count) (l ++ [x])) = Some x.
Proof.
  intros Hcount.
  destruct (slice_from_keeps_suffix (- count) l [x]) as [i ->];
    [lia|cbn; lia|].
  apply last_snoc.
Qed.

(** The loop over lines that are blank or records: it appends the records
    that pass the filters until the list has [count] of them. *)
Lemma collect_filtered count platform since lines :
  ∀ danmaku_list,
    Forall (λ line, line ≠ Garbage) lines →
    Z.of_nat (length danmaku_list) < count →
    collect count platform since lines danmaku_list
    = Ok (danmaku_list
          ++ take (Z.to_nat count - length danmaku_list)
               (filter (λ d, passes platform since d) (records_of lines))).
Proof.
  induction lines as [|line lines IH]; intros acc Hlines Hroom.
  - cbn [collect records_of omap list_omap]. rewrite filter_nil.
    by rewrite take_nil, app_nil_r.
  - apply Forall_cons in Hlines as [Hline Hlines].
    destruct line as [| |data]; [by apply IH|done|].
    cbn [collect strip json_loads records_of omap list_omap].
    change (omap _ lines) with (records_of lines).
    rewrite filter_cons.
    destruct (platform_skips platform data) eqn:Hplatform.
    { rewrite decide_False
        by (unfold passes; rewrite Hplatform; by intros ?).
      by apply IH. }
    destruct (since_skips since data) eqn:Hsince.
    { rewrite decide_False
        by (unfold passes; rewrite Hplatform, Hsince; by intros ?).
      by apply IH. }
    rewrite decide_True by (unfold passes; rewrite Hplatform, Hsince; by cbn).
    destruct (Z.geb_spec (Z.of_nat (length (acc ++ [data]))) count)
      as [Hfull|Hmore]; rewrite length_app in *; cbn [length] in *.
    + replace (Z.to_nat count - length acc)%nat with 1%nat by lia.
      done.
    + rewrite IH by (try rewrite length_app; cbn [length]; done || lia).
      rewrite length_app. cbn [length].
      replace (Z.to_nat count - length acc)%nat
        with (S (Z.to_nat count - (length acc + 1))) by lia.
      by rewrite <- app_assoc.
Qed.

(** The call on a log whose last lines are blank or records. *)
Lemma get_recent_danmaku_filtered self count (only_raw : bool) platform since
    (file : list log_line) :
  lines_of (if only_raw then raw_file else audited_file) self = Some file →
  1 ≤ count →
  Forall (λ line, line ≠ Garbage) (slice_from (- Z.min count 100 * 2) file) →
  get_recent_danmaku self count only_raw platform since
  = slice_from (- Z.min count 100)
      (filter (λ d, passes platform since d)
         (records_of (slice_from (- Z.min count 100 * 2) file))).
Proof.
  intros Hfile Hcount Hlines. unfold get_recent_danmaku. rewrite Hfile.
  rewrite collect_filtered by (by apply Forall_reverse || (cbn; lia)).
  cbn [app length]. rewrite Nat.sub_0_r.
  rewrite records_of_reverse, filter_reverse.
  apply slice_from_tail. lia.
Qed.

(** X12. On a log whose last [2 * min(count, 100)] lines are blank or
    records, [get_recent_danmaku] with [count >= 1] returns, in the order
    of the file, the last [min(count, 100)] of the records among those
    lines that pass the two filters.  A record that lies before those
    lines is never returned, however few of them pass. *)
Theorem recent_is_filtered_tail (self : DanmakuCacheManager) (count : Z)
    (only_raw : bool) (platform : option string) (since : option iso_text)
    (file : list log_line) :
  lines_of (if only_raw then raw_file else audited_file) self = Some file →
  1 ≤ count →
  Forall (λ line, line ≠ Garbage) (slice_from (- Z.min count 100 * 2) file) →
  get_recent_danmaku self count only_raw platform since
  = slice_from (- Z.min count 100)
      (filter (λ d, passes platform since d)
         (records_of (slice_from (- Z.min count 100 * 2) file)))
  ∧ Z.of_nat (length (get_recent_danmaku self count only_raw platform since))
    ≤ Z.min count 100.
Proof.
  intros Hfile Hcount Hlines.
  rewrite (get_recent_danmaku_filtered self count only_raw platform since
             file Hfile Hcount Hlines).
  split; [done|].
  set (passed := filter _ _). unfold slice_from. cbv zeta.
  destruct (Z.ltb_spec (- Z.min count 100) 0); [|lia].
  rewrite length_drop. lia.
Qed.

Lemma recent_is_filtered_tail_witness :
  passes (Some "live") None e1 = true
  ∧ get_recent_danmaku
      (manager_with (Some [Entry e1; Blank; Entry (on_platform "web" e2)]))
      1 true (Some "live") None = []
  ∧ get_recent_danmaku
      (manager_with (Some [Entry e1; Blank; Entry (on_platform "web" e2)]))
      2 true (Some "live") None = [e1].
Proof.
  split; [reflexivity|]. split.
  - exact (proj1 (recent_is_filtered_tail
             (manager_with (Some [Entry e1; Blank; Entry (on_platform "web" e2)]))
             1 true (Some "live") None _ eq_refl ltac:(done)
             ltac:(repeat constructor; done))).
  - exact (proj1 (recent_is_filtered_tail
             (manager_with (Some [Entry e1; Blank; Entry (on_platform "web" e2)]))
             2 true (Some "live") None _ eq_refl ltac:(done)
             ltac:(repeat constructor; done))).
Defined.

(** X13. Whatever the log holds, every record that [get_recent_danmaku]
    returns for a platform [p] (not the empty string) and a naive [since]
    is on platform [p], and its time stamp, when it is that of a naive
    datetime, is not before [since]; for [count >= 1] there are at most
    [min(count, 100)] of them, and they come in the order of the file. *)
Theorem recent_respects_filters (self : DanmakuCacheManager) (count : Z)
    (only_raw : bool) (p : string) (s : Z) :
  1 ≤ count → p ≠ "" →
  Forall (λ d, platform d = p ∧ ∀ t, timestamp d = IsoNaive t → s ≤ t)
    (get_recent_danmaku self count only_raw (Some p) (Some (IsoNaive s)))
  ∧ Z.of_nat (length (get_recent_danmaku self count only_raw (Some p)
                        (Some (IsoNaive s))))
    ≤ Z.min count 100
  ∧ (Entry <$> get_recent_danmaku self count only_raw (Some p)
                 (Some (IsoNaive s)))
    `sublist_of`
    default [] (lines_of (if only_raw then raw_file else audited_file) self).
Proof.
  intros Hcount Hp. split; [|split].
  - apply Forall_forall. intros d Hd.
    apply get_recent_danmaku_filters in Hd as [Hplatform Hsince].
    split.
    + unfold platform_skips in Hplatform.
      apply andb_false_iff in Hplatform as [H|H].
      * apply negb_false_iff, String.eqb_eq in H. done.
      * by apply negb_false_iff, String.eqb_eq in H.
    + intros t Ht. unfold since_skips in Hsince. rewrite Ht in Hsince.
      cbn in Hsince. lia.
  - pose proof (get_recent_danmaku_length self count only_raw (Some p)
                  (Some (IsoNaive s))). lia.
  - apply get_recent_danmaku_file_order.
Qed.

Lemma recent_respects_filters_witness :
  get_recent_danmaku
    (manager_with (Some [Entry e1; Entry (on_platform "web" e2); Entry e3]))
    10 true (Some "live") (Some (IsoNaive 2000000)) = [e3]
  ∧ Forall (λ d, platform d = "live"
                 ∧ ∀ t, timestamp d = IsoNaive t → 2000000 ≤ t)
      (get_recent_danmaku
         (manager_with
            (Some [Entry e1; Entry (on_platform "web" e2); Entry e3]))
         10 true (Some "live") (Some (IsoNaive 2000000))).
Proof.
  split; [reflexivity|].
  exact (proj1 (recent_respects_filters
           (manager_with
              (Some [Entry e1; Entry (on_platform "web" e2); Entry e3]))
           10 true "live" 2000000 ltac:(done) ltac:(done))).
Defined.

(** X14. After [add_raw_danmaku] on a disk that takes the write, and a raw
    log without a line that is not JSON, the record just added is the last
    one of what [get_recent_danmaku] returns, for every [count >= 1] and
    every pair of filters that let it through: the result runs from the
    oldest to the newest record. *)
Theorem newest_record_is_last (self : DanmakuCacheManager)
    (danmaku : DanmakuMessage) (count : Z) (platform : option string)
    (since : option iso_text) :
  writable self = true →
  Forall (λ line, line ≠ Garbage) (default [] (raw_lines self)) →
  1 ≤ count →
  passes platform since (pending danmaku) = true →
  ∃ self',
    add_raw_danmaku danmaku self = Returns self' (pending danmaku)
    ∧ last (get_recent_danmaku self' count true platform since)
      = Some (pending danmaku).
Proof.
  intros Hw Hlines Hcount Hpass. rewrite add_raw_danmaku_writable by done.
  eexists. split; [done|].
  set (file := default [] (raw_lines self)) in *.
  destruct (slice_from_keeps_suffix (- Z.min count 100 * 2) file
              [Entry (pending danmaku)]) as [i Hwindow]; [lia|cbn; lia|].
  rewrite (get_recent_danmaku_filtered _ count true platform since
             (file ++ [Entry (pending danmaku)])); [|done|done|].
  - rewrite Hwindow, records_of_app, filter_app.
    cbn [records_of omap list_omap].
    rewrite filter_cons, decide_True, filter_nil by (by rewrite Hpass).
    apply slice_from_snoc. lia.
  - rewrite Hwindow. apply Forall_app. split; [by apply Forall_drop|].
    by repeat constructor.
Qed.

Lemma newest_record_is_last_witness :
  ∃ self',
    add_raw_danmaku e3 two_logged = Returns self' (pending e3)
    ∧ last (get_recent_danmaku self' 2 true (Some "live") None)
      = Some (pending e3).
Proof.
  exact (newest_record_is_last two_logged e3 2 (Some "live") None eq_refl
           ltac:(repeat constructor; done) ltac:(done) eq_refl).
Defined.

(** *** The audited log: reading by status, and counting *)

Lemma with_status_sublist status records :
  with_status status records `sublist_of` records.
Proof.
  induction records as [|d records IH]; [done|]. cbn.
  destruct (String.eqb _ _); by constructor.
Qed.

Lemma with_status_Forall status records :
  Forall (λ d, audit_status d = status) (with_status status records).
Proof.
  induction records as [|d records IH]; [done|]. cbn.
  destruct (String.eqb_spec (audit_status d) status); [|done].
  by constructor.
Qed.

(** X15. [get_audited_danmaku] filters by status after the cut to
    [min(count, 100)] records, not before.  On an audited log of records
    and for [count >= 1], it returns the records with that status among
    the last [min(count, 100)] records of the log, in the order of the
    log; without a status (or with the empty one) it returns those last
    records. *)
Theorem audited_status_filters_after_cut (self : DanmakuCacheManager)
    (count : Z) (status : string) (records : list DanmakuMessage) :
  audited_lines self = Some (Entry <$> records) →
  1 ≤ count → status ≠ "" →
  get_audited_danmaku self count (Some status)
  = with_status status (slice_from (- Z.min count 100) records)
  ∧ get_audited_danmaku self count None
    = slice_from (- Z.min count 100) records
  ∧ get_audited_danmaku self count (Some "")
    = slice_from (- Z.min count 100) records
  ∧ Forall (λ d, audit_status d = status)
      (get_audited_danmaku self count (Some status))
  ∧ get_audited_danmaku self count (Some status) `sublist_of` records.
Proof.
  intros Hfile Hcount Hstatus.
  assert (Hrecent : get_recent_danmaku self count false None None
                    = slice_from (- Z.min count 100) records)
    by (by apply get_recent_danmaku_last_records).
  assert (Hget : get_audited_danmaku self count (Some status)
                 = with_status status (slice_from (- Z.min count 100) records)).
  { unfold get_audited_danmaku. rewrite Hrecent.
    destruct status as [|c status]; done. }
  split; [exact Hget|].
  split; [exact Hrecent|]. split; [exact Hrecent|]. rewrite Hget.
  split; [apply with_status_Forall|].
  etrans; [apply with_status_sublist|apply slice_from_sublist].
Qed.

Lemma audited_status_filters_after_cut_witness :
  get_audited_danmaku
    (manager_of None
       (Some (Entry <$> [audited e1 approve; audited e2 reject;
                         audited e3 reject])) true)
    2 (Some "approved") = []
  ∧ get_audited_danmaku
      (manager_of None
         (Some (Entry <$> [audited e1 approve; audited e2 reject;
                           audited e3 reject])) true)
      2 None = [audited e2 reject; audited e3 reject].
Proof.
  destruct (audited_status_filters_after_cut
              (manager_of None
                 (Some (Entry <$> [audited e1 approve; audited e2 reject;
                                   audited e3 reject])) true)
              2 "approved" _ eq_refl ltac:(done) ltac:(done))
    as (Hstatus & Hall & _).
  split; [exact Hstatus|exact Hall].
Defined.

(** The loop of [get_statistics] over lines that are blank or records. *)
Lemma count_audited_spec file :
  ∀ audited approved rejected,
    Forall (λ line, line ≠ Garbage) file →
    count_audited file audited approved rejected
    = Ok (audited + Z.of_nat (length (records_of file)),
          approved
          + Z.of_nat (length (with_status "approved" (records_of file))),
          rejected
          + Z.of_nat (length (with_status "rejected" (records_of file)))).
Proof.
  induction file as [|line file IH]; intros audited approved rejected Hlines.
  - cbn. by rewrite !Z.add_0_r.
  - apply Forall_cons in Hlines as [Hline Hlines].
    destruct line as [| |data]; [by apply IH|done|].
    cbn [count_audited strip json_loads records_of omap list_omap].
    change (omap _ file) with (records_of file).
    unfold with_status. cbn [List.filter].
    destruct (String.eqb_spec (audit_status data) "approved") as [Hstatus|_];
      destruct (String.eqb_spec (audit_status data) "rejected") as [Hother|_];
      [congruence|..]; cbv iota; rewrite IH by done; cbn [length];
      unfold with_status; apply (f_equal Ok); rewrite !pair_equal_spec; lia.
Qed.

Lemma with_status_exclusive records :
  (length (with_status "approved" records)
   + length (with_status "rejected" records) ≤ length records)%nat.
Proof.
  unfold with_status.
  induction records as [|d records IH]; [done|]. cbn [List.filter].
  destruct (String.eqb_spec (audit_status d) "approved") as [Hstatus|_];
    destruct (String.eqb_spec (audit_status d) "rejected") as [Hother|_];
    [congruence|..]; cbn [length]; lia.
Qed.

(** One more record at the end of the audited log. *)
Lemma count_audited_snoc file data :
  ∀ audited approved rejected,
    count_audited (file ++ [Entry data]) audited approved rejected
    = match count_audited file audited approved rejected with
      | Ok (audited, approved, rejected) =>
          Ok (audited + 1,
              approved
              + (if String.eqb (audit_status data) "approved" then 1 else 0),
              rejected
              + (if String.eqb (audit_status data) "approved" then 0
                 else if String.eqb (audit_status data) "rejected" then 1
                 else 0))
      | Error e => Error e
      end.
Proof.
  induction file as [|line file IH]; intros audited approved rejected.
  - cbn. destruct (String.eqb (audit_status data) "approved");
      [by rewrite Z.add_0_r|].
    destruct (String.eqb (audit_status data) "rejected");
      by rewrite !Z.add_0_r.
  - destruct line as [| |other]; [apply IH|done|].
    cbn [app count_audited strip json_loads].
    destruct (String.eqb (audit_status other) "approved"); [apply IH|].
    destruct (String.eqb (audit_status other) "rejected"); apply IH.
Qed.

(** X16. When the audited log has no line that is not JSON,
    [get_statistics] returns: as [raw_count], and again as
    [pending_count], the number of lines of the raw log, blank and
    unreadable lines included and audited records not deducted; as
    [audited_count] the number of records of the audited log; and as
    [approved_count] and [rejected_count] the numbers of those with that
    status, which together do not exceed [audited_count]. *)
Theorem statistics_count_lines_and_records (self : DanmakuCacheManager) :
  Forall (λ line, line ≠ Garbage) (default [] (audited_lines self)) →
  ∃ stats,
    get_statistics self = Ok stats
    ∧ raw_count stats = Z.of_nat (length (default [] (raw_lines self)))
    ∧ pending_count stats = raw_count stats
    ∧ audited_count stats
      = Z.of_nat (length (records_of (default [] (audited_lines self))))
    ∧ approved_count stats
      = Z.of_nat (length (with_status "approved"
                            (records_of (default [] (audited_lines self)))))
    ∧ rejected_count stats
      = Z.of_nat (length (with_status "rejected"
                            (records_of (default [] (audited_lines self)))))
    ∧ approved_count stats + rejected_count stats ≤ audited_count stats.
Proof.
  intros Hlines. unfold get_statistics.
  rewrite count_audited_spec by done. eexists. split; [done|].
  cbn [raw_count pending_count audited_count approved_count rejected_count].
  split; [by destruct (raw_lines self)|]. repeat (split; [done|]).
  pose proof (with_status_exclusive
                (records_of (default [] (audited_lines self)))). lia.
Qed.

Lemma statistics_count_lines_and_records_witness :
  get_statistics
    (manager_of (Some [Entry e1; Blank; Garbage])
       (Some [Entry (audited e1 approve); Blank; Entry (audited e2 reject);
              Entry e3]) true)
  = Ok {| raw_count := 3; audited_count := 3; approved_count := 1;
          rejected_count := 1; pending_count := 3 |}.
Proof.
  destruct (statistics_count_lines_and_records
              (manager_of (Some [Entry e1; Blank; Garbage])
                 (Some [Entry (audited e1 approve); Blank;
                        Entry (audited e2 reject); Entry e3]) true)
              ltac:(repeat constructor; done)) as (stats & Hstats & _).
  rewrite Hstats. vm_compute in Hstats. congruence.
Defined.

(** X17. Each write that the disk takes moves the statistics by one: a
    record added to the raw log adds one to [raw_count] and to
    [pending_count] and leaves the other counters; a record added to the
    audited log adds one to [audited_count] and one to [approved_count] or
    to [rejected_count], as the outcome allows it or not, and leaves
    [raw_count] and [pending_count] as they are. *)
Theorem statistics_follow_writes (self : DanmakuCacheManager)
    (danmaku : DanmakuMessage) (audit_result : gmap string pyval)
    (stats : statistics) :
  writable self = true →
  get_statistics self = Ok stats →
  (∃ self',
     add_raw_danmaku danmaku self = Returns self' (pending danmaku)
     ∧ get_statistics self'
       = Ok {| raw_count := raw_count stats + 1;
               audited_count := audited_count stats;
               approved_count := approved_count stats;
               rejected_count := rejected_count stats;
               pending_count := pending_count stats + 1 |})
  ∧ (∃ self',
       add_audited_danmaku danmaku audit_result self
       = Returns self' (audited danmaku audit_result)
       ∧ get_statistics self'
         = Ok {| raw_count := raw_count stats;
                 audited_count := audited_count stats + 1;
                 approved_count :=
                   approved_count stats
                   + (if allowed audit_result then 1 else 0);
                 rejected_count :=
                   rejected_count stats
                   + (if allowed audit_result then 0 else 1);
                 pending_count := pending_count stats |}).
Proof.
  intros Hw Hstats. unfold get_statistics in Hstats.
  destruct (count_audited (default [] (audited_lines self)) 0 0 0)
    as [[[n_audited n_approved] n_rejected]|e] eqn:Hcount; [|done].
  injection Hstats as <-.
  cbn [raw_count pending_count audited_count approved_count rejected_count].
  split.
  - rewrite add_raw_danmaku_writable by done. eexists. split; [done|].
    unfold get_statistics. cbn [with_lines raw_lines audited_lines].
    rewrite Hcount, length_app. cbn [length].
    replace (Z.of_nat (length (default [] (raw_lines self)) + 1))
      with (match raw_lines self with
            | Some file => Z.of_nat (length file)
            | None => 0
            end + 1); [done|].
    destruct (raw_lines self) as [file|];
      [change (default [] (Some file)) with file|]; cbn; lia.
  - rewrite add_audited_danmaku_writable by done. eexists. split; [done|].
    unfold get_statistics. cbn [with_lines raw_lines audited_lines].
    change (default [] (Some ?l)) with l.
    rewrite count_audited_snoc, Hcount. unfold audited.
    cbn [set_audit audit_status]. by destruct (allowed audit_result).
Qed.

Lemma statistics_follow_writes_witness :
  (∃ self',
     add_raw_danmaku e3 two_logged = Returns self' (pending e3)
     ∧ get_statistics self'
       = Ok {| raw_count := 3; audited_count := 0; approved_count := 0;
               rejected_count := 0; pending_count := 3 |})
  ∧ (∃ self',
       add_audited_danmaku e3 reject two_logged
       = Returns self' (audited e3 reject)
       ∧ get_statistics self'
         = Ok {| raw_count := 2; audited_count := 1; approved_count := 0;
                 rejected_count := 1; pending_count := 2 |}).
Proof.
  exact (statistics_follow_writes two_logged e3 reject
           {| raw_count := 2; audited_count := 0; approved_count := 0;
              rejected_count := 0; pending_count := 2 |} eq_refl eq_refl).
Defined.

(** *** Lookup by id, and the arrival of an audit result *)

Lemma first_with_id_Some danmaku_id l danmaku :
  first_with_id danmaku_id l = Some danmaku →
  id danmaku = danmaku_id ∧ danmaku ∈ l.
Proof.
  unfold first_with_id. intros Hfind.
  apply List.find_some in Hfind as [Hin Hid].
  split; [by apply String.eqb_eq|by apply list_elem_of_In].
Qed.

(** X18. A record that [get_danmaku_by_id] returns has the id asked for
    and stands among the last 200 lines of the raw log, or, when the call
    may look there ([only_raw] false), of the audited log. *)
Theorem by_id_returns_a_logged_record (self : DanmakuCacheManager)
    (danmaku_id : string) (only_raw : bool) (danmaku : DanmakuMessage) :
  get_danmaku_by_id self danmaku_id only_raw = Some danmaku →
  id danmaku = danmaku_id
  ∧ (Entry danmaku ∈ tail_window (raw_lines self)
     ∨ (only_raw = false
        ∧ Entry danmaku ∈ tail_window (audited_lines self))).
Proof.
  unfold get_danmaku_by_id. intros Hget.
  destruct (first_with_id danmaku_id
              (get_recent_danmaku self 1000 true None None))
    as [found|] eqn:Hraw.
  - injection Hget as ->.
    apply first_with_id_Some in Hraw as [Hid Hin].
    split; [done|]. left. by apply (by_id_reads_window self true).
  - destruct only_raw; [done|].
    apply first_with_id_Some in Hget as [Hid Hin].
    split; [done|]. right. split; [done|].
    by apply (by_id_reads_window self false).
Qed.

Lemma by_id_returns_a_logged_record_witness :
  get_danmaku_by_id two_logged "e2" true = Some e2
  ∧ id e2 = "e2"
  ∧ (Entry e2 ∈ tail_window (raw_lines two_logged)
     ∨ (true = false ∧ Entry e2 ∈ tail_window (audited_lines two_logged))).
Proof.
  split; [reflexivity|].
  exact (by_id_returns_a_logged_record two_logged "e2" true e2 eq_refl).
Defined.

(** X19. Once a record is in the raw log and its audit result has
    arrived, [get_danmaku_by_id] still returns the pending copy of the raw
    log, also when it is asked to look at the audited log: the copy with
    the outcome is in the audited log and the lookup does not get to it.
    The raw log is taken to have no line that is not JSON and no other
    record of that id, and the disk to take the writes. *)
Theorem audited_copy_is_shadowed (self : DanmakuCacheManager)
    (danmaku : DanmakuMessage) (audit_result : gmap string pyval) :
  writable self = true →
  Forall (λ line, line ≠ Garbage
                  ∧ ∀ other, line = Entry other → id other ≠ id danmaku)
    (default [] (raw_lines self)) →
  ∃ self1 self2,
    add_raw_danmaku danmaku self = Returns self1 (pending danmaku)
    ∧ update_audit_result (id danmaku) audit_result self1 = Returns self2 tt
    ∧ Entry (audited danmaku audit_result)
      ∈ default [] (audited_lines self2)
    ∧ get_danmaku_by_id self2 (id danmaku) false = Some (pending danmaku)
    ∧ audit_status (pending danmaku) = "pending".
Proof.
  intros Hw Hlines. rewrite add_raw_danmaku_writable by done.
  set (self1 := with_lines raw_file _ self).
  assert (Hfound : ∀ self', raw_lines self' = raw_lines self1 →
            get_danmaku_by_id self' (id danmaku) true = Some (pending danmaku)).
  { intros self' Hraw.
    apply (by_id_finds_last self' (default [] (raw_lines self))
             (pending danmaku)); done. }
  assert (Hw1 : writable self1 = true) by done.
  exists self1. eexists. split; [done|].
  unfold update_audit_result, bind at 1, gets. cbv beta iota.
  rewrite (Hfound self1 eq_refl). unfold bind.
  rewrite add_audited_danmaku_writable by done. split; [reflexivity|].
  split; [|split; [|done]].
  - cbn [with_lines audited_lines].
    change (default [] (Some ?l)) with l. unfold audited, pending.
    rewrite set_audit_twice. apply elem_of_app. right. by left.
  - specialize (Hfound (with_lines audited_file
        (default [] (audited_lines self1)
         ++ [Entry (audited (pending danmaku) audit_result)]) self1) eq_refl).
    unfold get_danmaku_by_id in *.
    by destruct (first_with_id (id danmaku) _).
Qed.

Lemma audited_copy_is_shadowed_witness :
  ∃ self1 self2,
    add_raw_danmaku e3 two_logged = Returns self1 (pending e3)
    ∧ update_audit_result "e3" reject self1 = Returns self2 tt
    ∧ Entry (audited e3 reject) ∈ default [] (audited_lines self2)
    ∧ get_danmaku_by_id self2 "e3" false = Some (pending e3)
    ∧ audit_status (pending e3) = "pending".
Proof.
  exact (audited_copy_is_shadowed two_logged e3 reject eq_refl
           ltac:(repeat constructor; (done || by intros ? [= <-]))).
Defined.

(** X20. [update_audit_result] returns for every state, id and outcome:
    it raises nothing, it leaves the raw log and the settings as they are,
    and it adds to the audited log either nothing or the one record that
    [get_danmaku_by_id] found in the raw log, with the outcome.  On a disk
    that refuses writes it changes nothing at all. *)
Theorem update_audit_result_returns (self : DanmakuCacheManager)
    (danmaku_id : string) (audit_result : gmap string pyval) :
  ∃ self',
    update_audit_result danmaku_id audit_result self = Returns self' tt
    ∧ raw_lines self' = raw_lines self
    ∧ retention_days self' = retention_days self
    ∧ max_count self' = max_count self
    ∧ writable self' = writable self
    ∧ (audited_lines self' = audited_lines self
       ∨ ∃ danmaku,
           get_danmaku_by_id self danmaku_id true = Some danmaku
           ∧ audited_lines self'
             = Some (default [] (audited_lines self)
                     ++ [Entry (audited danmaku audit_result)]))
    ∧ (get_danmaku_by_id self danmaku_id true = None → self' = self)
    ∧ (writable self = false → self' = self).
Proof.
  unfold update_audit_result, bind at 1, gets. cbv beta iota.
  destruct (get_danmaku_by_id self danmaku_id true) as [danmaku|] eqn:Hget.
  - unfold bind. destruct (writable self) eqn:Hw.
    + rewrite add_audited_danmaku_writable by done. eexists.
      split; [reflexivity|]. repeat (split; [done|]).
      split; [right; by exists danmaku|]. by split.
    + unfold add_audited_danmaku, bind, try_except, append_line.
      rewrite Hw. exists self. split; [reflexivity|].
      repeat (split; [done|]). split; [by left|]. by split.
  - exists self. split; [reflexivity|]. repeat (split; [done|]).
    split; [by left|]. by split.
Qed.

(** *** Cleanup of both logs *)

(** The reading loop of [_cleanup_file] has no [except] around
    [json.loads]: a line that is not JSON ends it with the error. *)
Lemma cleanup_scan_garbage cutoff_time file :
  ∀ lines,
    Garbage ∈ file →
    cleanup_scan cutoff_time file lines = Error JSONDecodeError.
Proof.
  induction file as [|line file IH]; intros lines Hin.
  - by apply elem_of_nil in Hin.
  - apply elem_of_cons in Hin as [<-|Hin]; [done|].
    destruct line as [| |data]; [by apply IH|done|].
    cbn [cleanup_scan strip json_loads].
    destruct (retained cutoff_time data); by apply IH.
Qed.

(** On blank lines and records the loop keeps the records that are
    [retained], and no blank line. *)
Lemma cleanup_scan_keeps cutoff_time file :
  ∀ lines,
    Forall (λ line, line ≠ Garbage) file →
    cleanup_scan cutoff_time file lines
    = Ok (lines ++ filter (λ line, keeps cutoff_time line) file).
Proof.
  induction file as [|line file IH]; intros lines Hlines.
  - by rewrite filter_nil, app_nil_r.
  - apply Forall_cons in Hlines as [Hline Hlines].
    destruct line as [| |data]; [|done|].
    + rewrite filter_cons_False by (by intros ?). by apply IH.
    + cbn [cleanup_scan strip json_loads]. rewrite filter_cons.
      destruct (retained cutoff_time data) eqn:Hkept.
      * rewrite decide_True by (cbn [keeps]; by rewrite Hkept).
        rewrite IH by done. by rewrite <- app_assoc.
      * rewrite decide_False by (cbn [keeps]; rewrite Hkept; by intros ?).
        by apply IH.
Qed.

Lemma _cleanup_file_keeps file_path cutoff_time self :
  writable self = true →
  Forall (λ line, line ≠ Garbage) (default [] (lines_of file_path self)) →
  _cleanup_file file_path cutoff_time self
  = Returns
      match lines_of file_path self with
      | Some file =>
          with_lines file_path
            (filter (λ line, keeps cutoff_time line) file) self
      | None => self
      end tt.
Proof.
  intros Hw Hlines. unfold _cleanup_file, bind at 1, gets. cbv beta iota.
  destruct (lines_of file_path self) as [file|]; [|done].
  unfold bind. rewrite cleanup_scan_keeps by done. cbn [lift ret app].
  unfold write_lines. by rewrite Hw.
Qed.

Lemma _cleanup_file_garbage file_path cutoff_time self :
  Garbage ∈ default [] (lines_of file_path self) →
  _cleanup_file file_path cutoff_time self = Raises self JSONDecodeError.
Proof.
  intros Hin. unfold _cleanup_file, bind at 1, gets. cbv beta iota.
  destruct (lines_of file_path self) as [file|];
    [|by apply elem_of_nil in Hin].
  unfold bind. by rewrite cleanup_scan_garbage.
Qed.

(** The whole cleanup on logs of blank lines and records. *)
Lemma cleanup_old_danmaku_keeps now days self :
  writable self = true →
  Forall (λ line, line ≠ Garbage) (default [] (raw_lines self)) →
  Forall (λ line, line ≠ Garbage) (default [] (audited_lines self)) →
  cleanup_old_danmaku now days self
  = Returns (cleaned (cutoff_of now days self) self) tt.
Proof.
  intros Hw Hraw Haudited. rewrite cleanup_old_danmaku_cutoff.
  fold (days_kept days self). cbv zeta. fold (cutoff_of now days self).
  unfold bind. rewrite (_cleanup_file_keeps raw_file) by done.
  rewrite (_cleanup_file_keeps audited_file).
  - f_equal. unfold cleaned. destruct self as [r m [raw|] [audited|] w];
      reflexivity.
  - cbn [lines_of]. destruct (raw_lines self);
      cbn [with_lines lines_of writable audited_lines]; done.
  - cbn [lines_of]. destruct (raw_lines self);
      cbn [with_lines lines_of writable audited_lines]; done.
Qed.

Lemma cleaned_again cutoff_time self :
  cleaned cutoff_time (cleaned cutoff_time self) = cleaned cutoff_time self.
Proof.
  unfold cleaned. cbn.
  destruct (raw_lines self), (audited_lines self); cbn;
    by rewrite ?ContextExtra.filter_again.
Qed.

Lemma cleaned_no_garbage cutoff_time (file : option (list log_line)) :
  Forall (λ line, line ≠ Garbage)
    (default [] (filter (λ line, keeps cutoff_time line) <$> file)).
Proof.
  destruct file as [file|]; [|done]. cbn. apply Forall_forall.
  intros line [Hkeeps _]%list_elem_of_filter. by destruct line.
Qed.

(** X21. [cleanup_old_danmaku] has no [try] of its own.  A line that is
    not JSON in the raw log makes it raise with nothing rewritten, also
    when other lines are long expired; such a line in the audited log
    makes it raise after the raw log has been rewritten; and a disk that
    refuses the write makes it raise [OSError] as soon as there is a raw
    log to rewrite.  The number of days is one that [timedelta] and the
    subtraction from [datetime.now()] take. *)
Theorem cleanup_raises_on_unreadable_line (now : Z) (days : option Z)
    (self : DanmakuCacheManager) :
  within_a_century (days_kept days self) →
  (Garbage ∈ default [] (raw_lines self) →
   cleanup_old_danmaku now days self = Raises self JSONDecodeError)
  ∧ (writable self = true →
     Forall (λ line, line ≠ Garbage) (default [] (raw_lines self)) →
     Garbage ∈ default [] (audited_lines self) →
     cleanup_old_danmaku now days self
     = Raises
         match raw_lines self with
         | Some file =>
             with_lines raw_file
               (filter (λ line, keeps (cutoff_of now days self) line) file)
               self
         | None => self
         end JSONDecodeError)
  ∧ (writable self = false →
     ∀ file, raw_lines self = Some file →
             Forall (λ line, line ≠ Garbage) file →
             cleanup_old_danmaku now days self = Raises self OSError).
Proof.
  intros _. rewrite cleanup_old_danmaku_cutoff.
  fold (days_kept days self). cbv zeta. fold (cutoff_of now days self).
  split; [|split].
  - intros Hin. unfold bind. by rewrite (_cleanup_file_garbage raw_file).
  - intros Hw Hraw Hin. unfold bind.
    rewrite (_cleanup_file_keeps raw_file) by done.
    rewrite (_cleanup_file_garbage audited_file); [done|].
    cbn [lines_of]. destruct (raw_lines self);
      cbn [with_lines lines_of writable audited_lines]; done.
  - intros Hw file Hfile Hlines. unfold bind at 1, _cleanup_file, bind at 1.
    unfold gets. cbv beta iota. cbn [lines_of]. rewrite Hfile.
    unfold bind. rewrite cleanup_scan_keeps by done. cbn [lift ret].
    unfold write_lines. by rewrite Hw.
Qed.

Lemma cleanup_raises_on_unreadable_line_witness :
  cleanup_old_danmaku seven_days_later None garbled
  = Raises garbled JSONDecodeError
  ∧ cleanup_old_danmaku seven_days_later None
      (manager_of (Some [Entry (danmaku "e0" "bye" 100)]) (Some [Garbage])
         true)
    = Raises (manager_of (Some []) (Some [Garbage]) true) JSONDecodeError.
Proof.
  split.
  - apply (cleanup_raises_on_unreadable_line seven_days_later None garbled);
      [by vm_compute|].
    apply list_elem_of_In. cbn. tauto.
  - destruct (cleanup_raises_on_unreadable_line seven_days_later None
                (manager_of (Some [Entry (danmaku "e0" "bye" 100)]) (Some [Garbage])
         true)
                ltac:(by vm_compute)) as (_ & Hlater & _).
    refine (Hlater eq_refl ltac:(by repeat constructor) _).
    apply list_elem_of_In. cbn. tauto.
Defined.

(** X22. On a disk that takes the writes and on logs of blank lines and
    records, [cleanup_old_danmaku] returns and leaves in each log that is
    there its records that [_cleanup_file] retains, in their order, and no
    blank line; a log that is not there is not created, and the settings
    stay.  [days=0] stands for the manager's [retention_days].  A second
    cleanup at the same moment changes nothing more. *)
Theorem cleanup_keeps_retained_records (now : Z) (days : option Z)
    (self : DanmakuCacheManager) :
  within_a_century (days_kept days self) →
  writable self = true →
  Forall (λ line, line ≠ Garbage) (default [] (raw_lines self)) →
  Forall (λ line, line ≠ Garbage) (default [] (audited_lines self)) →
  cleanup_old_danmaku now days self
  = Returns (cleaned (cutoff_of now days self) self) tt
  ∧ cleanup_old_danmaku now days (cleaned (cutoff_of now days self) self)
    = Returns (cleaned (cutoff_of now days self) self) tt
  ∧ (days = Some 0 →
     cutoff_of now days self
     = Naive (now - retention_days self * 86400000000)).
Proof.
  intros _ Hw Hraw Haudited.
  split; [by apply cleanup_old_danmaku_keeps|]. split.
  - rewrite cleanup_old_danmaku_keeps;
      [|done|apply cleaned_no_garbage|apply cleaned_no_garbage].
    change (cutoff_of now days (cleaned (cutoff_of now days self) self))
      with (cutoff_of now days self).
    by rewrite cleaned_again.
  - intros ->. unfold cutoff_of, days_kept. cbn. f_equal. lia.
Qed.

Lemma cleanup_keeps_retained_records_witness :
  cleanup_old_danmaku (1500000 + 7 * 86400000000) (Some 0)
    (manager_of (Some [Entry e1; Blank; Entry e2]) None true)
  = Returns (manager_of (Some [Entry e2]) None true) tt.
Proof.
  exact (proj1 (cleanup_keeps_retained_records
                  (1500000 + 7 * 86400000000) (Some 0)
                  (manager_of (Some [Entry e1; Blank; Entry e2]) None true)
                  ltac:(by vm_compute) eq_refl
                  ltac:(repeat constructor; done) ltac:(done))).
Defined.

(** X23. After a cleanup on a disk that takes the writes and on logs of
    blank lines and records, [get_recent_danmaku] returns, for every count
    and filter and from either log, only records that the cleanup retains:
    a record whose time stamp is that of a naive datetime is later
    than the cutoff, [days] days before the moment of the cleanup. *)
Theorem recent_after_cleanup_is_fresh (now : Z) (days : option Z)
    (self : DanmakuCacheManager) (count : Z) (only_raw : bool)
    (platform : option string) (since : option iso_text) :
  within_a_century (days_kept days self) →
  writable self = true →
  Forall (λ line, line ≠ Garbage) (default [] (raw_lines self)) →
  Forall (λ line, line ≠ Garbage) (default [] (audited_lines self)) →
  ∃ self',
    cleanup_old_danmaku now days self = Returns self' tt
    ∧ Forall (λ d, retained (cutoff_of now days self) d = true
                   ∧ ∀ t, timestamp d = IsoNaive t →
                          now - days_kept days self * 86400000000 < t)
        (get_recent_danmaku self' count only_raw platform since).
Proof.
  intros _ Hw Hraw Haudited.
  rewrite cleanup_old_danmaku_keeps by done. eexists. split; [done|].
  apply Forall_forall. intros d Hd.
  assert (Hline : Entry d
            ∈ default [] (lines_of (if only_raw then raw_file
                                    else audited_file)
                            (cleaned (cutoff_of now days self) self))).
  { apply (elem_of_sublist
             (Entry <$> get_recent_danmaku
                (cleaned (cutoff_of now days self) self) count only_raw
                platform since));
      [by apply list_elem_of_fmap_2|apply get_recent_danmaku_file_order]. }
  assert (Hkept : retained (cutoff_of now days self) d = true).
  { set (file := lines_of (if only_raw then raw_file else audited_file) self).
    assert (Hfile : lines_of (if only_raw then raw_file else audited_file)
                      (cleaned (cutoff_of now days self) self)
                    = filter (λ line, keeps (cutoff_of now days self) line)
                        <$> file) by (by destruct only_raw).
    rewrite Hfile in Hline. destruct file as [lines|];
      [|by apply elem_of_nil in Hline].
    cbn in Hline. apply list_elem_of_filter in Hline as [Hkeeps _].
    cbn [keeps] in Hkeeps. by destruct (retained _ d). }
  split; [done|]. intros t Ht. unfold retained in Hkept.
  rewrite Ht in Hkept. cbn in Hkept. lia.
Qed.

Lemma recent_after_cleanup_is_fresh_witness :
  ∃ self',
    cleanup_old_danmaku (1500000 + 7 * 86400000000) None two_logged
    = Returns self' tt
    ∧ Forall (λ d, retained (Naive 1500000) d = true
                   ∧ ∀ t, timestamp d = IsoNaive t → 1500000 < t)
        (get_recent_danmaku self' 10 true None None).
Proof.
  exact (recent_after_cleanup_is_fresh (1500000 + 7 * 86400000000) None
           two_logged 10 true None None ltac:(by vm_compute) eq_refl
           ltac:(repeat constructor; done) ltac:(done)).
Defined.

End DanmakuExtra.
